(** * ANSI/IES TM-30-18 colour fidelity index: hue bins, bin averages,
      gamut area and local shifts

    Shallow embedding of [colour/quality/tm3018.py].

    The source computes on numpy [float64] arrays.  The code is embedded
    once, over an interface [Float64] of the scalar operations it uses, and
    read at two carriers:

    - the real numbers ([R_Float64]), where [+], [*], [/], [floor], [cos],
      [sin] and [sqrt] are the exact operations: an idealisation of
      float64 without rounding, underflow, NaN or infinities, where the
      algebraic statements (shoelace formula, area ratio, shifts, hue
      bins) are proved;
    - IEEE 754 binary64 ([B64_Float64], Rocq's primitive floats), the
      arithmetic of the code itself: the statements about undefined
      results are proved there, and where a statement that holds over the
      reals fails under rounding, a concrete input there shows it.

    The order of the additions is the code's: [np.sum] and [np.mean] of a
    one-dimensional array add pairwise, with eight running sums; the mean
    of the rows of an array adds row after row.

    A one-dimensional array is a [list], an array of shape (n, 2) a list of
    pairs, an index array a [list nat].  Python exceptions are the [Raise]
    results of the monad [result]. *)

From Stdlib Require Import String Floats.
From Stdlib Require Uint63.
From Stdlib Require Import List ZArith QArith Reals Lra Lia Permutation.
From Stdlib Require Import Sorted Bool.
Import ListNotations.

Set Implicit Arguments.

(** ** Exceptions *)

Inductive exception : Type :=
| IndexError
| AttributeError.

Inductive result (A : Type) : Type :=
| Ok (a : A)
| Raise (e : exception).

Arguments Ok {A} a.
Arguments Raise {A} e.

Definition bind {A B : Type} (m : result A) (k : A -> result B) : result B :=
  match m with
  | Ok a => k a
  | Raise e => Raise e
  end.

Notation "x <- m ;; k" := (bind m (fun x => k))
  (at level 61, m at next level, right associativity).

(** ** The scalar interface *)

Declare Scope f64_scope.
Delimit Scope f64_scope with f64.

Class Float64 (F : Type) : Type := {
  of_Z : Z -> F;            (* an int used where a float is expected *)
  lit : Q -> F;             (* a decimal literal such as 22.5 *)
  fadd : F -> F -> F;
  fsub : F -> F -> F;
  fmul : F -> F -> F;
  fdiv : F -> F -> F;
  fopp : F -> F;
  feqb : F -> F -> bool;    (* == *)
  np_floor : F -> F;
  np_sqrt : F -> F;
  np_cos : F -> F;
  np_sin : F -> F;
  np_pi : F
}.

Infix "+" := fadd : f64_scope.
Infix "-" := fsub : f64_scope.
Infix "*" := fmul : f64_scope.
Infix "/" := fdiv : f64_scope.
Notation "- x" := (fopp x) : f64_scope.

(** ** Array helpers (numpy) *)

Section Arrays.
Context {F : Type} `{Float64 F}.
Local Open Scope f64_scope.

(** The eight running sums of numpy's unrolled summation loop. *)
Definition acc8 : Type := (F * F * F * F * F * F * F * F)%type.

(** [for (i = 8; i < n - (n % 8); i += 8) r[j] += a[i + j]]: every full
    block of eight entries is added to the eight running sums; the entries
    left over, fewer than eight, are returned with the sums. *)
Fixpoint add_blocks (r : acc8) (a : list F) {struct a} : acc8 * list F :=
  match a with
  | a0 :: a1 :: a2 :: a3 :: a4 :: a5 :: a6 :: a7 :: a' =>
      let '(r0, r1, r2, r3, r4, r5, r6, r7) := r in
      add_blocks
        (r0 + a0, r1 + a1, r2 + a2, r3 + a3,
         r4 + a4, r5 + a5, r6 + a6, r7 + a7) a'
  | _ => (r, a)
  end.

(** numpy's [pairwise_sum] on at most 128 entries.  Under 8 entries: a
    plain loop from 0.  From 8 entries on: eight running sums, seeded with
    the first eight entries, take the full blocks of eight, are added up as
    [((r0 + r1) + (r2 + r3)) + ((r4 + r5) + (r6 + r7))], and the entries
    left over are added to that one by one. *)
Definition pairwise_block (a : list F) : F :=
  match a with
  | a0 :: a1 :: a2 :: a3 :: a4 :: a5 :: a6 :: a7 :: a' =>
      let '((r0, r1, r2, r3, r4, r5, r6, r7), rest) :=
        add_blocks (a0, a1, a2, a3, a4, a5, a6, a7) a' in
      fold_left fadd rest
        (((r0 + r1) + (r2 + r3)) + ((r4 + r5) + (r6 + r7)))
  | _ => fold_left fadd a (of_Z 0)
  end.

(** Above 128 entries the array is split at [n2 = n / 2; n2 -= n2 % 8] and
    the sums of the two parts are added.  The recursion is on [fuel]: the
    length of the array is enough of it, and more of it changes nothing
    ([pairwise_sum_rec_fuel]). *)
Fixpoint pairwise_sum_rec (fuel : nat) (a : list F) : F :=
  match fuel with
  | O => pairwise_block a
  | S fuel' =>
      if Nat.leb (length a) 128 then pairwise_block a
      else
        let n2 := Nat.div (length a) 2 in
        let n2 := Nat.sub n2 (Nat.modulo n2 8) in
        pairwise_sum_rec fuel' (firstn n2 a)
        + pairwise_sum_rec fuel' (skipn n2 a)
  end.

Definition pairwise_sum (a : list F) : F := pairwise_sum_rec (length a) a.

(** [np.sum] of a one-dimensional float64 array: the reduction starts
    from 0, the identity of the addition, and adds the pairwise sum of the
    entries to it.  (A numpy that starts from [-0.0] instead gives the
    same sum but for the sign of a zero.) *)
Definition np_sum (xs : list F) : F := of_Z 0 + pairwise_sum xs.

(** [np.mean] of a one-dimensional array: the sum over the count. *)
Definition np_mean (xs : list F) : F :=
  np_sum xs / of_Z (Z.of_nat (length xs)).

(** The sum of one column of an array of shape (k, 2) along axis 0: the
    rows are added one after the other, from 0; numpy adds pairwise only
    along the contiguous axis, which this one is not. *)
Definition np_sum_axis0 (column : list F) : F :=
  fold_left fadd column (of_Z 0).

(** [np.mean(rows, axis=0)] of an array of shape (k, 2). *)
Definition np_mean_axis0 (rows : list (F * F)) : F * F :=
  let k := of_Z (Z.of_nat (length rows)) in
  (np_sum_axis0 (map fst rows) / k, np_sum_axis0 (map snd rows) / k).

(** [np.where(xs == b)[0]]: the indexes, ascending, of the entries equal
    to [b]. *)
Fixpoint where_eq_from (i : nat) (xs : list F) (b : F) : list nat :=
  match xs with
  | [] => []
  | x :: xs' =>
      if feqb x b then i :: where_eq_from (S i) xs' b
      else where_eq_from (S i) xs' b
  end.

Definition np_where_eq (xs : list F) (b : F) : list nat :=
  where_eq_from 0 xs b.

(** [np.linalg.norm(rows, axis=1)] of an array of shape (k, 2). *)
Definition np_linalg_norm_axis1 (rows : list (F * F)) : list F :=
  map (fun p => np_sqrt (fst p * fst p + snd p * snd p)) rows.

(** Elementwise binary operation on two arrays of one shape. *)
Definition map2 (f : F -> F -> F) (xs ys : list F) : list F :=
  map (fun p => f (fst p) (snd p)) (combine xs ys).
End Arrays.

Section Indexing.
Variable A : Type.

(** [xs[idx]] for an index array [idx]: an index out of range raises. *)
Fixpoint take (xs : list A) (idx : list nat) : result (list A) :=
  match idx with
  | [] => Ok []
  | i :: idx' =>
      match nth_error xs i with
      | Some x => rest <- take xs idx' ;; Ok (x :: rest)
      | None => Raise IndexError
      end
  end.

(** [xs[i] = v] on an array: an index out of range raises. *)
Fixpoint set_row (xs : list A) (i : nat) (v : A) : result (list A) :=
  match xs, i with
  | [], _ => Raise IndexError
  | _ :: xs', O => Ok (v :: xs')
  | x :: xs', S i' => xs'' <- set_row xs' i' v ;; Ok (x :: xs'')
  end.

(** [xs[i]] on a Python list. *)
Definition list_get (xs : list A) (i : nat) : result A :=
  match nth_error xs i with
  | Some x => Ok x
  | None => Raise IndexError
  end.

(** [[f(i) for i in idx]] where [f] may raise. *)
Fixpoint comprehension (B : Type) (f : A -> result B) (xs : list A)
  : result (list B) :=
  match xs with
  | [] => Ok []
  | x :: xs' => y <- f x ;; ys <- comprehension f xs' ;; Ok (y :: ys)
  end.
End Indexing.

(** ** [averages_area] *)

Section Area.
Context {F : Type} `{Float64 F}.
Local Open Scope f64_scope.

(** The rows read are [i] and [(i + 1) % N] with [i < N], always in
    range: the default of [nth] is never returned. *)
Definition averages_area (averages : list (F * F)) : F :=
  let N := length averages in
  let triangle_areas :=
    map (fun i =>
           let u := nth i averages (of_Z 0, of_Z 0) in
           let v := nth ((i + 1) mod N) averages (of_Z 0, of_Z 0) in
           (fst u * snd v - snd u * fst v) / of_Z 2)
        (seq 0 N) in
  np_sum triangle_areas.
End Area.

(** ** The upstream computation ([colour.quality.cfi2017])

    Only its records and its entry point's type are needed: the records
    carry the fields this module reads. *)

Module cfi2017.
Record DataColorimetry_TCS_CIE2017 (F : Type) : Type := {
  JMh : F * F * F;
  Jpapbp : F * F * F
}.

Record ColourRendering_Specification_CIE2017 (SD F : Type) : Type := {
  name : string;
  sd_reference : SD;
  R_f : F;
  R_s : list F;
  CCT : F;
  D_uv : F;
  colorimetry_data :
    list (DataColorimetry_TCS_CIE2017 F) *
    list (DataColorimetry_TCS_CIE2017 F);
  delta_E_s : list F
}.

(** What [colour_fidelity_index_CIE2017] returns: a float, or the
    specification. *)
Inductive output (SD F : Type) : Type :=
| Float (R_f : F)
| Specification (s : ColourRendering_Specification_CIE2017 SD F).

Arguments Float {SD F} R_f.
Arguments Specification {SD F} s.
End cfi2017.

Import cfi2017.

(** ** [ColourQuality_Specification_ANSIIESTM3018] *)

Record ColourQuality_Specification_ANSIIESTM3018 (SD F : Type) : Type := {
  name : string;
  sd_test : SD;
  sd_reference : SD;
  R_f : F;
  R_s : list F;
  CCT : F;
  D_uv : F;
  colorimetry_data :
    list (DataColorimetry_TCS_CIE2017 F) * list (DataColorimetry_TCS_CIE2017 F);
  R_g : F;
  bins : list (list nat);
  averages_test : list (F * F);
  averages_reference : list (F * F);
  average_norms : list F;
  R_fs : list F;
  R_cs : list F;
  R_hs : list F
}.

(** What [colour_fidelity_index_ANSIIESTM3018] returns. *)
Inductive output (SD F : Type) : Type :=
| CIE2017 (o : cfi2017.output SD F)
| ANSIIESTM3018 (q : ColourQuality_Specification_ANSIIESTM3018 SD F).

Arguments CIE2017 {SD F} o.
Arguments ANSIIESTM3018 {SD F} q.

(** ** [colour_fidelity_index_ANSIIESTM3018] *)

Section TM3018.
Variable SD : Type.
Context {F : Type} `{Float64 F}.
Local Open Scope f64_scope.

Variable colour_fidelity_index_CIE2017 : SD -> bool -> cfi2017.output SD F.

(** [delta_E_to_R_f] of the upstream module, a parameter: the transform of
    one mean colour difference, applied to each of the 16 means. *)
Variable delta_E_to_R_f : F -> F.

Definition hue_angle (sample : DataColorimetry_TCS_CIE2017 F) : F :=
  snd (cfi2017.JMh sample).                                    (* JMh[2] *)

Definition apbp (j : DataColorimetry_TCS_CIE2017 F) : F * F :=
  (snd (fst (cfi2017.Jpapbp j)), snd (cfi2017.Jpapbp j)).   (* Jpapbp[1:] *)

(** Setup bins based on where the reference a'b' points are located. *)
Definition hue_bins (reference : list (DataColorimetry_TCS_CIE2017 F))
  : list (list nat) :=
  let bins :=
    map (fun sample => np_floor (hue_angle sample / lit 22.5)) reference in
  map (fun b => np_where_eq bins (of_Z (Z.of_nat b))) (seq 0 16).

(** [np.empty([16, 2])]: 16 rows of unspecified content. *)
Definition np_empty_16_2 : list (F * F) := repeat (of_Z 0, of_Z 0) 16.

(** Per-bin a'b' averages: the loop over [enumerate(bins)]. *)
Fixpoint bin_averages_loop (test_apbp ref_apbp : list (F * F))
  (idx : nat) (bins : list (list nat))
  (averages_test averages_reference : list (F * F))
  : result (list (F * F) * list (F * F)) :=
  match bins with
  | [] => Ok (averages_test, averages_reference)
  | b :: bins' =>
      test_b <- take test_apbp b ;;
      averages_test' <- set_row averages_test idx (np_mean_axis0 test_b) ;;
      ref_b <- take ref_apbp b ;;
      averages_reference' <-
        set_row averages_reference idx (np_mean_axis0 ref_b) ;;
      bin_averages_loop test_apbp ref_apbp (S idx) bins'
        averages_test' averages_reference'
  end.

Definition bin_averages
  (data : list (DataColorimetry_TCS_CIE2017 F) *
          list (DataColorimetry_TCS_CIE2017 F))
  (bins : list (list nat)) : result (list (F * F) * list (F * F)) :=
  let averages_test := np_empty_16_2 in
  let averages_reference := np_empty_16_2 in
  let test_apbp := map apbp (fst data) in
  let ref_apbp := map apbp (snd data) in
  bin_averages_loop test_apbp ref_apbp 0 bins
    averages_test averages_reference.

(** Gamut Index. *)
Definition gamut_index (averages_test averages_reference : list (F * F))
  : F :=
  of_Z 100 *
  (averages_area averages_test / averages_area averages_reference).

(** Local colour fidelity indexes, i.e. 16 CFIs for each bin. *)
Definition local_colour_fidelities (delta_E_s : list F)
  (bins : list (list nat)) : result (list F) :=
  bin_delta_E_s <-
    comprehension
      (fun i => b <- list_get bins i ;;
                d <- take delta_E_s b ;;
                Ok (np_mean d))
      (seq 0 16) ;;
  Ok (map delta_E_to_R_f bin_delta_E_s).

(** Angles bisecting the hue bins. *)
Definition angles : list F :=
  map (fun i => (lit 22.5 * of_Z (Z.of_nat i) + lit 11.25) / of_Z 180
                * np_pi)
      (seq 0 16).

Definition cosines : list F := map np_cos angles.
Definition sines : list F := map np_sin angles.

Definition a_deltas (averages_test averages_reference : list (F * F))
  : list F :=
  map2 fsub (map fst averages_test) (map fst averages_reference).

Definition b_deltas (averages_test averages_reference : list (F * F))
  : list F :=
  map2 fsub (map snd averages_test) (map snd averages_reference).

(** Local chromaticity shifts, multiplied by 100 to obtain percentages. *)
Definition local_chromaticity_shifts
  (averages_test averages_reference : list (F * F)) : list F :=
  let average_norms := np_linalg_norm_axis1 averages_reference in
  let a_deltas := a_deltas averages_test averages_reference in
  let b_deltas := b_deltas averages_test averages_reference in
  map2 fdiv
    (map (fmul (of_Z 100))
       (map2 fadd (map2 fmul a_deltas cosines) (map2 fmul b_deltas sines)))
    average_norms.

(** Local hue shifts. *)
Definition local_hue_shifts
  (averages_test averages_reference : list (F * F)) : list F :=
  let average_norms := np_linalg_norm_axis1 averages_reference in
  let a_deltas := a_deltas averages_test averages_reference in
  let b_deltas := b_deltas averages_test averages_reference in
  map2 fdiv
    (map2 fadd (map2 fmul (map fopp a_deltas) sines)
       (map2 fmul b_deltas cosines))
    average_norms.

Definition colour_fidelity_index_ANSIIESTM3018
  (sd_test : SD) (additional_data : bool) : result (output SD F) :=
  if negb additional_data
  then Ok (CIE2017 (colour_fidelity_index_CIE2017 sd_test false))
  else
    match colour_fidelity_index_CIE2017 sd_test true with
    | Float _ => Raise AttributeError
    | Specification specification =>
        let bins := hue_bins (snd (cfi2017.colorimetry_data specification)) in
        averages <-
          bin_averages (cfi2017.colorimetry_data specification) bins ;;
        let averages_test := fst averages in
        let averages_reference := snd averages in
        let R_g := gamut_index averages_test averages_reference in
        R_fs <-
          local_colour_fidelities (cfi2017.delta_E_s specification) bins ;;
        let average_norms := np_linalg_norm_axis1 averages_reference in
        let R_cs :=
          local_chromaticity_shifts averages_test averages_reference in
        let R_hs := local_hue_shifts averages_test averages_reference in
        Ok (ANSIIESTM3018
              {| name := cfi2017.name specification;
                 sd_test := sd_test;
                 sd_reference := cfi2017.sd_reference specification;
                 R_f := cfi2017.R_f specification;
                 R_s := cfi2017.R_s specification;
                 CCT := cfi2017.CCT specification;
                 D_uv := cfi2017.D_uv specification;
                 colorimetry_data := cfi2017.colorimetry_data specification;
                 R_g := R_g;
                 bins := bins;
                 averages_test := averages_test;
                 averages_reference := averages_reference;
                 average_norms := average_norms;
                 R_fs := R_fs;
                 R_cs := R_cs;
                 R_hs := R_hs |})
    end.

(** The upstream invariant the indexing relies on: one entry per colour
    sample in the test data, the reference data and [delta_E_s]. *)
Definition same_samples
  (specification : ColourRendering_Specification_CIE2017 SD F) : Prop :=
  length (fst (cfi2017.colorimetry_data specification)) =
  length (snd (cfi2017.colorimetry_data specification)) /\
  length (cfi2017.delta_E_s specification) =
  length (snd (cfi2017.colorimetry_data specification)).

(** The bisecting angle of bin [i], an entry of [angles]. *)
Definition angle (i : nat) : F :=
  (lit 22.5 * of_Z (Z.of_nat i) + lit 11.25) / of_Z 180 * np_pi.
End TM3018.

(** ** The carrier of binary64 floats *)

(** A Python int (below 2^63 in magnitude) converted to float64. *)
Definition b64_of_Z (z : Z) : float :=
  match z with
  | Z0 => 0%float
  | Zpos _ => PrimFloat.of_uint63 (Uint63.of_Z z)
  | Zneg p => (- PrimFloat.of_uint63 (Uint63.of_Z (Zpos p)))%float
  end.

(** A decimal literal: the quotient of its numerator and denominator,
    rounded once (22.5 and 11.25 are exact). *)
Definition b64_lit (q : Q) : float :=
  (b64_of_Z (Qnum q) / b64_of_Z (Zpos (Qden q)))%float.

(** [floor] on binary64: below 2^52 in magnitude, adding and subtracting
    2^52 rounds to an integer, which is lowered by one when it exceeds
    the argument; every other float (NaN and the infinities included) is
    returned as it is. *)
Definition b64_floor (x : float) : float :=
  if (PrimFloat.abs x <? 0x1p52)%float then
    if (x =? 0)%float then x
    else
      let r := if (0 <? x)%float then ((x + 0x1p52) - 0x1p52)%float
               else ((x - 0x1p52) + 0x1p52)%float in
      if (r <=? x)%float then r else (r - 1)%float
  else x.

Definition b64_pi : float := 0x1.921fb54442d18p+1%float.

Section B64.
(** [np.cos] and [np.sin] on float64 are the C library's: any two
    functions on floats. *)
Variables libm_cos libm_sin : float -> float.

Definition B64_Float64 : Float64 float := {|
  of_Z := b64_of_Z;
  lit := b64_lit;
  fadd := PrimFloat.add;
  fsub := PrimFloat.sub;
  fmul := PrimFloat.mul;
  fdiv := PrimFloat.div;
  fopp := PrimFloat.opp;
  feqb := PrimFloat.eqb;
  np_floor := b64_floor;
  np_sqrt := PrimFloat.sqrt;
  np_cos := libm_cos;
  np_sin := libm_sin;
  np_pi := b64_pi
|}.
End B64.

(** NaN or an infinity. *)
Definition undefined (x : float) : bool :=
  (PrimFloat.is_nan x || PrimFloat.is_infinity x)%bool.

(** ** Closed forms of the per-bin arrays

    What the loops compute when no index is out of range. *)

Section ClosedForms.
Context {F : Type} `{Float64 F}.

(** The rows of [xs] at the indexes [b]. *)
Definition rows_at (xs : list (F * F)) (b : list nat) : list (F * F) :=
  map (fun i => nth i xs (of_Z 0, of_Z 0)) b.

Definition entries_at (xs : list F) (b : list nat) : list F :=
  map (fun i => nth i xs (of_Z 0)) b.

Definition bin_means (xs : list (F * F)) (bins : list (list nat))
  : list (F * F) :=
  map (fun b => np_mean_axis0 (rows_at xs b)) bins.

Definition bin_delta_E_s (delta_E_s : list F) (bins : list (list nat))
  : list F :=
  map (fun b => np_mean (entries_at delta_E_s b)) bins.
End ClosedForms.

(** ** The carrier of real numbers *)

Definition Reqb (x y : R) : bool := if Req_dec_T x y then true else false.

#[export] Instance R_Float64 : Float64 R := {
  of_Z := IZR;
  lit := Q2R;
  fadd := Rplus;
  fsub := Rminus;
  fmul := Rmult;
  fdiv := Rdiv;
  fopp := Ropp;
  feqb := Reqb;
  np_floor := fun x => IZR (Int_part x);
  np_sqrt := sqrt;
  np_cos := cos;
  np_sin := sin;
  np_pi := PI
}.

(** The shoelace formula for 16 points, as the specification words it:
    the sum over [i] from 0 to 15 of [(u_i.x * v_i.y - u_i.y * v_i.x) / 2],
    [u_i] the point [i] and [v_i] the point [(i + 1) mod 16]. *)
Definition shoelace_term (points : list (R * R)) (i : nat) : R :=
  let u := nth i points (0, 0)%R in
  let v := nth ((i + 1) mod 16) points (0, 0)%R in
  ((fst u * snd v - snd u * fst v) / 2)%R.

Definition shoelace16 (points : list (R * R)) : R :=
  sum_f_R0 (shoelace_term points) 15.

(** Sum of a list of reals, by structural recursion. *)
Fixpoint Rsum (l : list R) : R :=
  match l with
  | [] => 0%R
  | x :: l' => (x + Rsum l')%R
  end.

(** The signed area of the triangle spanned by the origin, [u] and [v]. *)
Definition cross (u v : R * R) : R :=
  ((fst u * snd v - snd u * fst v) / 2)%R.

(** The bin label of a hue angle: [floor(hue_angle / 22.5)] as an integer. *)
Definition bin_index (hue : R) : Z := Int_part (hue / 22.5).

(** The members of bin [b], read off the hue angles of the reference
    samples. *)
Definition in_bin (reference : list (DataColorimetry_TCS_CIE2017 R))
  (b i : nat) : Prop :=
  In i (nth b (hue_bins reference) []).

Definition sample0 : DataColorimetry_TCS_CIE2017 R :=
  {| JMh := (0, 0, 0)%R; Jpapbp := (0, 0, 0)%R |}.

(** A concrete input over the reals: 16 colour samples, one per hue bin,
    whose a'b' points go once around the square of side 4, anticlockwise;
    the test and the reference data agree. *)
Definition fixture_sample (hue a b : R) : DataColorimetry_TCS_CIE2017 R :=
  {| JMh := (0, 0, hue)%R; Jpapbp := (0, a, b)%R |}.

Definition fixture_samples : list (DataColorimetry_TCS_CIE2017 R) :=
  [ fixture_sample 14 2 (1/2);       fixture_sample 37 2 (3/2);
    fixture_sample 53 (3/2) 2;       fixture_sample 76 (1/2) 2;
    fixture_sample 104 (-1/2) 2;     fixture_sample 127 (-3/2) 2;
    fixture_sample 143 (-2) (3/2);   fixture_sample 166 (-2) (1/2);
    fixture_sample 194 (-2) (-1/2);  fixture_sample 217 (-2) (-3/2);
    fixture_sample 233 (-3/2) (-2);  fixture_sample 256 (-1/2) (-2);
    fixture_sample 284 (1/2) (-2);   fixture_sample 307 (3/2) (-2);
    fixture_sample 323 2 (-3/2);     fixture_sample 346 2 (-1/2) ]%R.

(** The upstream result on [samples], test and reference data alike. *)
Definition specification_of (samples : list (DataColorimetry_TCS_CIE2017 R))
  : ColourRendering_Specification_CIE2017 unit R :=
  {| cfi2017.name := "fixture";
     cfi2017.sd_reference := tt;
     cfi2017.R_f := 100%R;
     cfi2017.R_s := map (fun _ => 100%R) samples;
     cfi2017.CCT := 6500%R;
     cfi2017.D_uv := 0%R;
     cfi2017.colorimetry_data := (samples, samples);
     cfi2017.delta_E_s := map (fun _ => 0%R) samples |}.

Definition CIE2017_of (samples : list (DataColorimetry_TCS_CIE2017 R))
  (sd : unit) (additional_data : bool) : cfi2017.output unit R :=
  if additional_data then Specification (specification_of samples)
  else Float 100%R.

Definition fixture_specification
  : ColourRendering_Specification_CIE2017 unit R :=
  specification_of fixture_samples.

Definition fixture_CIE2017 : unit -> bool -> cfi2017.output unit R :=
  CIE2017_of fixture_samples.

(** Three samples, two of them with a hue angle outside [0, 360). *)
Definition stray_samples : list (DataColorimetry_TCS_CIE2017 R) :=
  [ fixture_sample (-5) 1 0; fixture_sample 400 0 1;
    fixture_sample 14 2 (1/2) ]%R.

(** ** The shift in a bin, as the specification words it *)

Section ShiftWords.
Local Open Scope R_scope.

(** The (test - reference) average-delta vector of bin [i]. *)
Definition average_delta (averages_test averages_reference : list (R * R)) (i : nat) : R * R :=
  let t := nth i averages_test (0, 0) in
  let r := nth i averages_reference (0, 0) in
  (fst t - fst r, snd t - snd r).

Definition euclidean_norm (v : R * R) : R := sqrt (fst v * fst v + snd v * snd v).

(** Projections on the radial direction [(cos, sin)] and on the tangential direction [(-sin, cos)] of bin [i]. *)
Definition radial (v : R * R) (i : nat) : R :=
  fst v * cos (angle i) + snd v * sin (angle i).

Definition tangential (v : R * R) (i : nat) : R :=
  fst v * - sin (angle i) + snd v * cos (angle i).


(** A purely radial, inward delta in bin 0: the reference average is twice
    the test average, on the bisector of the bin. *)
Definition cx_reference : list (R * R) :=
  (2 * cos (angle 0), 2 * sin (angle 0)) :: repeat (1, 0) 15.

Definition cx_test : list (R * R) :=
  (cos (angle 0), sin (angle 0)) :: repeat (1, 0) 15.

End ShiftWords.

(** ** Concrete inputs in binary64 *)

(** Polynomials standing for the C library's sine and cosine. *)
Definition poly_sin (x : float) : float :=
  (x * (1 - x * x / 6 * (1 - x * x / 20 * (1 - x * x / 42))))%float.

Definition poly_cos (x : float) : float :=
  (1 - x * x / 2 * (1 - x * x / 12 * (1 - x * x / 30)))%float.

Definition b64_sample (hue a b : float) : DataColorimetry_TCS_CIE2017 float :=
  {| JMh := (0, 0, hue)%float; Jpapbp := (0, a, b)%float |}.

Definition b64_specification
  (samples : list (DataColorimetry_TCS_CIE2017 float))
  : ColourRendering_Specification_CIE2017 unit float :=
  {| cfi2017.name := "binary64";
     cfi2017.sd_reference := tt;
     cfi2017.R_f := 100%float;
     cfi2017.R_s := map (fun _ => 100%float) samples;
     cfi2017.CCT := 6500%float;
     cfi2017.D_uv := 0%float;
     cfi2017.colorimetry_data := (samples, samples);
     cfi2017.delta_E_s := map (fun _ => 0%float) samples |}.

Definition b64_CIE2017 (samples : list (DataColorimetry_TCS_CIE2017 float))
  (sd : unit) (additional_data : bool) : cfi2017.output unit float :=
  if additional_data then Specification (b64_specification samples)
  else Float 100%float.

(** One sample: 15 of the 16 hue bins are empty. *)
Definition one_sample : list (DataColorimetry_TCS_CIE2017 float) :=
  [ b64_sample 14 2 0.5 ].

(** One sample per hue bin, every a'b' point at the origin: the reference
    averages have zero norm and span a polygon of zero area. *)
Definition origin_samples : list (DataColorimetry_TCS_CIE2017 float) :=
  map (fun hue => b64_sample hue 0 0)
    [14; 37; 53; 76; 104; 127; 143; 166;
     194; 217; 233; 256; 284; 307; 323; 346]%float.

(** A point given in tenths: [b64_point 245 49] is (24.5, 4.9), each
    coordinate the binary64 float nearest to the decimal. *)
Definition b64_point (a b : Z) : float * float :=
  (b64_of_Z a / 10, b64_of_Z b / 10)%float.

(** Sixteen points, one in each hue bin, anticlockwise around the origin
    at distances between 20 and 30. *)
Definition b64_polygon : list (float * float) :=
  [ b64_point 245 49;        b64_point 208 139;
    b64_point 122 183;       b64_point 43 216;
    b64_point (-43) 216;     b64_point (-122) 183;
    b64_point (-183) 122;    b64_point (-216) 43;
    b64_point (-196) (-39);  b64_point (-249) (-167);
    b64_point (-122) (-183); b64_point (-49) (-245);
    b64_point 39 (-196);     b64_point 150 (-224);
    b64_point 183 (-122);    b64_point 294 (-59) ].

(** Four samples; the hue angles of the first two are negative, of
    magnitude [2^-1074] (the smallest there is) and [11 * 2^-1074], that
    of the third is [-12 * 2^-1074]. *)
Definition subnormal_hue_samples : list (DataColorimetry_TCS_CIE2017 float) :=
  [ b64_sample (-0x1p-1074) 4 1;   b64_sample (-0x1.6p-1071) 6 3;
    b64_sample (-0x1.8p-1071) 9 9; b64_sample 14 2 0.5 ].

(** ** Words for the further properties *)

(** Every index of every bin is below [n]. *)
Definition rows_in_range (n : nat) (bs : list (list nat)) : bool :=
  forallb (forallb (fun i => i <? n)%nat) bs.

Section PlaneWords.
Local Open Scope R_scope.

Definition translate (t : R * R) (p : R * R) : R * R :=
  (fst p + fst t, snd p + snd t).

Definition scale (k : R) (p : R * R) : R * R := (k * fst p, k * snd p).

(** The point [p] lies in the axis-aligned box from [lo] to [hi]. *)
Definition in_box (lo hi p : R * R) : Prop :=
  fst lo <= fst p <= fst hi /\ snd lo <= snd p <= snd hi.

(** The sample with its a'b' point scaled by [k]; lightness and hue angle
    are kept. *)
Definition scale_sample (k : R) (sample : DataColorimetry_TCS_CIE2017 R)
  : DataColorimetry_TCS_CIE2017 R :=
  {| JMh := JMh sample;
     Jpapbp := (fst (fst (Jpapbp sample)),
                k * snd (fst (Jpapbp sample)),
                k * snd (Jpapbp sample)) |}.

Definition scale_specification (SD : Type) (k : R)
  (s : ColourRendering_Specification_CIE2017 SD R)
  : ColourRendering_Specification_CIE2017 SD R :=
  {| cfi2017.name := cfi2017.name s;
     cfi2017.sd_reference := cfi2017.sd_reference s;
     cfi2017.R_f := cfi2017.R_f s;
     cfi2017.R_s := cfi2017.R_s s;
     cfi2017.CCT := cfi2017.CCT s;
     cfi2017.D_uv := cfi2017.D_uv s;
     cfi2017.colorimetry_data :=
       (map (scale_sample k) (fst (cfi2017.colorimetry_data s)),
        map (scale_sample k) (snd (cfi2017.colorimetry_data s)));
     cfi2017.delta_E_s := cfi2017.delta_E_s s |}.

(** An upstream computation on two spectral distributions ([false] and
    [true]): the second one's a'b' points are those of the first, doubled. *)
Definition doubled_CIE2017 (sd : bool) (additional_data : bool)
  : cfi2017.output bool R :=
  let s :=
    {| cfi2017.name := "fixture";
       cfi2017.sd_reference := false;
       cfi2017.R_f := 100;
       cfi2017.R_s := map (fun _ => 100) fixture_samples;
       cfi2017.CCT := 6500;
       cfi2017.D_uv := 0;
       cfi2017.colorimetry_data := (fixture_samples, fixture_samples);
       cfi2017.delta_E_s := map (fun _ => 0) fixture_samples |} in
  if additional_data
  then Specification (if sd then scale_specification 2 s else s)
  else Float 100.
End PlaneWords.

(** An upstream result in binary64 with one test sample for two reference
    samples. *)
Definition short_test_CIE2017 (sd : unit) (additional_data : bool)
  : cfi2017.output unit float :=
  if additional_data
  then Specification
         {| cfi2017.name := "short";
            cfi2017.sd_reference := tt;
            cfi2017.R_f := 100%float;
            cfi2017.R_s := [100; 100]%float;
            cfi2017.CCT := 6500%float;
            cfi2017.D_uv := 0%float;
            cfi2017.colorimetry_data :=
              ([b64_sample 14 2 0.5],
               [b64_sample 14 2 0.5; b64_sample 37 2 1.5]);
            cfi2017.delta_E_s := [0; 0]%float |}
  else Float 100%float.

(** * Properties *)

Unset Implicit Arguments.

(** ** Indexing and [np.where] *)

Section IndexingFacts.
Variable A : Type.

Lemma take_ok (xs : list A) (d : A) (idx : list nat) :
  Forall (fun i => i < length xs)%nat idx ->
  take xs idx = Ok (map (fun i => nth i xs d) idx).
Proof.
  induction 1 as [|i idx Hi _ IH]; [reflexivity|].
  simpl. rewrite (nth_error_nth' xs d Hi), IH. reflexivity.
Qed.

Lemma set_row_ok (xs : list A) (i : nat) (v : A) :
  (i < length xs)%nat ->
  exists xs', set_row xs i v = Ok xs' /\ length xs' = length xs /\
              forall k d, nth k xs' d = if (k =? i)%nat then v else nth k xs d.
Proof.
  revert i; induction xs as [|x xs IH]; intros i Hi; simpl in Hi; [lia|].
  destruct i as [|i].
  - exists (v :: xs). repeat split. intros [|k] d; reflexivity.
  - destruct (IH i) as (xs' & E & L & N); [lia|].
    exists (x :: xs'). simpl. rewrite E. simpl. repeat split; [lia|].
    intros [|k] d; [reflexivity|]. simpl. apply N.
Qed.

Lemma comprehension_ok (B : Type) (f : A -> result B) (g : A -> B) (xs : list A) :
  (forall x, In x xs -> f x = Ok (g x)) ->
  comprehension f xs = Ok (map g xs).
Proof.
  induction xs as [|x xs IH]; intros Hf; [reflexivity|].
  simpl. rewrite (Hf x (or_introl eq_refl)). simpl.
  rewrite IH by (intros; apply Hf; right; assumption). reflexivity.
Qed.

Lemma list_get_ok (xs : list A) (d : A) (i : nat) :
  (i < length xs)%nat -> list_get xs i = Ok (nth i xs d).
Proof. intros Hi. unfold list_get. rewrite (nth_error_nth' xs d Hi). reflexivity. Qed.
End IndexingFacts.

Section WhereFacts.
Context {F : Type} `{Float64 F}.

Lemma where_eq_from_filter (d : F) (xs : list F) (b : F) (i : nat) :
  where_eq_from i xs b =
  filter (fun j => feqb (nth (j - i) xs d) b) (seq i (length xs)).
Proof.
  revert i; induction xs as [|x xs IH]; intros i; [reflexivity|].
  cbn [where_eq_from length seq filter].
  rewrite Nat.sub_diag. cbn [nth]. rewrite IH.
  assert (E : filter (fun j => feqb (nth (j - S i) xs d) b) (seq (S i) (length xs)) =
              filter (fun j => feqb (nth (j - i) (x :: xs) d) b) (seq (S i) (length xs))).
  { apply filter_ext_in. intros j Hj. apply in_seq in Hj.
    replace (j - i)%nat with (S (j - S i)) by lia. reflexivity. }
  rewrite E. reflexivity.
Qed.

Lemma np_where_eq_filter (d : F) (xs : list F) (b : F) :
  np_where_eq xs b = filter (fun j => feqb (nth j xs d) b) (seq 0 (length xs)).
Proof.
  unfold np_where_eq. rewrite (where_eq_from_filter d).
  apply filter_ext. intros j. rewrite Nat.sub_0_r. reflexivity.
Qed.
End WhereFacts.

(** ** The fuel of the pairwise summation *)

Section SumFacts.
Context {F : Type} `{Float64 F}.
Local Open Scope nat_scope.

(** Up to 128 entries there is no split. *)
Lemma pairwise_sum_block (a : list F) :
  length a <= 128 -> pairwise_sum a = pairwise_block a.
Proof.
  intros Hlen. unfold pairwise_sum.
  destruct (length a) as [|n] eqn:E; cbn [pairwise_sum_rec]; [reflexivity|].
  rewrite E. destruct (Nat.leb_spec (S n) 128); [reflexivity|lia].
Qed.

(** Each part of a split is shorter than the array, so fuel equal to the
    length never runs out: any two such amounts give one result. *)
Lemma pairwise_sum_rec_fuel (fuel fuel' : nat) :
  forall a : list F,
    length a <= fuel -> length a <= fuel' ->
    pairwise_sum_rec fuel a = pairwise_sum_rec fuel' a.
Proof.
  revert fuel'. induction fuel as [|fuel IH]; intros fuel' a H1 H2.
  - destruct fuel' as [|fuel']; cbn [pairwise_sum_rec]; [reflexivity|].
    destruct (Nat.leb_spec (length a) 128); [reflexivity|lia].
  - destruct fuel' as [|fuel']; cbn [pairwise_sum_rec].
    + destruct (Nat.leb_spec (length a) 128); [reflexivity|lia].
    + destruct (Nat.leb_spec (length a) 128) as [Hle | Hgt]; [reflexivity|].
      assert (Hn2 : 0 < length a / 2 - (length a / 2) mod 8 < length a).
      { pose proof (Nat.div_mod_eq (length a) 2) as E2.
        pose proof (Nat.mod_upper_bound (length a) 2) as B2.
        pose proof (Nat.mod_upper_bound (length a / 2) 8) as B8.
        lia. }
      f_equal; apply IH;
        rewrite ?length_firstn, ?length_skipn; lia.
Qed.
End SumFacts.

(** ** Sums of reals and the polygon area *)

Section AreaFacts.
Local Open Scope R_scope.


Lemma fold_left_Rplus (l : list R) (a : R) : fold_left Rplus l a = a + Rsum l.
Proof. revert a; induction l as [|x l IH]; intros a; simpl; [lra|rewrite IH; lra]. Qed.

Lemma Rsum_app l1 l2 : Rsum (l1 ++ l2) = Rsum l1 + Rsum l2.
Proof. induction l1; simpl; lra. Qed.

Lemma np_sum_axis0_Rsum (l : list R) : np_sum_axis0 l = Rsum l.
Proof. unfold np_sum_axis0; simpl. rewrite fold_left_Rplus. lra. Qed.

(** The unrolled loop keeps the total of the running sums and of the
    entries not yet read. *)
Lemma add_blocks_Rsum (n : nat) :
  forall (a : list R) (r0 r1 r2 r3 r4 r5 r6 r7 : R),
    (length a <= n)%nat ->
    forall (s0 s1 s2 s3 s4 s5 s6 s7 : R) (rest : list R),
      add_blocks (r0, r1, r2, r3, r4, r5, r6, r7) a =
      ((s0, s1, s2, s3, s4, s5, s6, s7), rest) ->
      s0 + s1 + s2 + s3 + s4 + s5 + s6 + s7 + Rsum rest =
      r0 + r1 + r2 + r3 + r4 + r5 + r6 + r7 + Rsum a.
Proof.
  induction n as [|n IH]; intros a r0 r1 r2 r3 r4 r5 r6 r7 Hlen
    s0 s1 s2 s3 s4 s5 s6 s7 rest Hrun;
    destruct a as [|a0 [|a1 [|a2 [|a3 [|a4 [|a5 [|a6 [|a7 a']]]]]]]];
    cbn [add_blocks] in Hrun;
    try (injection Hrun as <- <- <- <- <- <- <- <- <-; reflexivity);
    cbn [length] in Hlen; [lia|].
  apply IH in Hrun; [|lia]. rewrite Hrun.
  cbn [Rsum fadd R_Float64]. lra.
Qed.

Lemma pairwise_block_Rsum (a : list R) : pairwise_block a = Rsum a.
Proof.
  destruct a as [|a0 [|a1 [|a2 [|a3 [|a4 [|a5 [|a6 [|a7 a']]]]]]]];
    unfold pairwise_block;
    try (rewrite fold_left_Rplus; cbn [of_Z R_Float64]; lra).
  destruct (add_blocks (a0, a1, a2, a3, a4, a5, a6, a7) a')
    as [[[[[[[[s0 s1] s2] s3] s4] s5] s6] s7] rest] eqn:Hrun.
  apply (add_blocks_Rsum (length a') a') in Hrun; [|lia].
  rewrite fold_left_Rplus. cbn [Rsum fadd R_Float64]. lra.
Qed.

Lemma pairwise_sum_rec_Rsum (fuel : nat) (a : list R) :
  pairwise_sum_rec fuel a = Rsum a.
Proof.
  revert a. induction fuel as [|fuel IH]; intros a; cbn [pairwise_sum_rec].
  - apply pairwise_block_Rsum.
  - destruct (Nat.leb (length a) 128); [apply pairwise_block_Rsum|].
    rewrite !IH. cbn [fadd R_Float64]. rewrite <- Rsum_app.
    rewrite firstn_skipn. reflexivity.
Qed.

(** Over the reals the order of the additions does not matter: [np.sum]
    is the sum of the entries. *)
Lemma np_sum_Rsum (l : list R) : np_sum l = Rsum l.
Proof.
  unfold np_sum, pairwise_sum. rewrite pairwise_sum_rec_Rsum.
  cbn [fadd of_Z R_Float64]. lra.
Qed.

Lemma Rsum_map_opp (A : Type) (f : A -> R) l : Rsum (map (fun x => - f x) l) = - Rsum (map f l).
Proof. induction l; simpl; lra. Qed.

Lemma Rsum_seq_sum_f_R0 (f : nat -> R) (n : nat) : Rsum (map f (seq 0 (S n))) = sum_f_R0 f n.
Proof.
  induction n as [|n IH].
  - simpl. lra.
  - rewrite seq_S, map_app, Rsum_app, IH. simpl. lra.
Qed.


Lemma averages_area_Rsum (averages : list (R * R)) :
  averages_area averages =
  Rsum (map (fun i => cross (nth i averages (0, 0)) (nth ((i + 1) mod length averages) averages (0, 0)))
            (seq 0 (length averages))).
Proof. unfold averages_area. rewrite np_sum_Rsum. reflexivity. Qed.

Lemma averages_area_shoelace16 (averages : list (R * R)) :
  length averages = 16%nat -> averages_area averages = shoelace16 averages.
Proof.
  intros HN. rewrite averages_area_Rsum, HN. unfold shoelace16.
  rewrite <- Rsum_seq_sum_f_R0. reflexivity.
Qed.

Lemma cross_swap u v : cross u v = - cross v u.
Proof. unfold cross. lra. Qed.

Lemma Rsum_seq_reflect (f : nat -> R) (n : nat) :
  Rsum (map (fun i => f (n - 1 - i)%nat) (seq 0 n)) = Rsum (map f (seq 0 n)).
Proof.
  induction n as [|n IH]; [reflexivity|].
  rewrite seq_S at 2. rewrite map_app, Rsum_app, <- IH.
  cbn [seq map Rsum]. rewrite <- seq_shift, map_map.
  replace (S n - 1 - 0)%nat with n by lia.
  rewrite Rplus_0_r, Rplus_comm. f_equal.
  f_equal. apply map_ext. intros i. f_equal. lia.
Qed.

End AreaFacts.

(** ** The loops, when no index is out of range *)

Section LoopFacts.
Context {F : Type} `{Float64 F}.

Lemma hue_bins_length (reference : list (DataColorimetry_TCS_CIE2017 F)) :
  length (hue_bins reference) = 16%nat.
Proof. unfold hue_bins. rewrite length_map, length_seq. reflexivity. Qed.

Lemma hue_bins_bound (reference : list (DataColorimetry_TCS_CIE2017 F)) :
  Forall (Forall (fun i => i < length reference)%nat) (hue_bins reference).
Proof.
  unfold hue_bins. apply Forall_forall. intros b Hb.
  apply in_map_iff in Hb. destruct Hb as (k & <- & _).
  rewrite (np_where_eq_filter (of_Z 0)). apply Forall_forall. intros i Hi.
  apply filter_In in Hi. destruct Hi as [Hi _]. apply in_seq in Hi.
  rewrite length_map in Hi. lia.
Qed.

Lemma bin_averages_loop_ok (test_apbp ref_apbp : list (F * F)) (L : nat) :
  forall (bins : list (list nat)) (idx : nat)
         (averages_test averages_reference : list (F * F)),
    length averages_test = L -> length averages_reference = L ->
    (idx + length bins <= L)%nat ->
    Forall (Forall (fun i => i < length test_apbp)%nat) bins ->
    Forall (Forall (fun i => i < length ref_apbp)%nat) bins ->
    exists averages_test' averages_reference',
      bin_averages_loop test_apbp ref_apbp idx bins
        averages_test averages_reference
      = Ok (averages_test', averages_reference') /\
      length averages_test' = L /\ length averages_reference' = L /\
      (forall k d,
          nth k averages_test' d =
          if ((idx <=? k) && (k <? idx + length bins))%nat
          then np_mean_axis0 (rows_at test_apbp (nth (k - idx) bins []))
          else nth k averages_test d) /\
      (forall k d,
          nth k averages_reference' d =
          if ((idx <=? k) && (k <? idx + length bins))%nat
          then np_mean_axis0 (rows_at ref_apbp (nth (k - idx) bins []))
          else nth k averages_reference d).
Proof.
  intros bins0.
  induction bins0 as [|b bins0 IH]; intros idx avt avr Lt Lr Hidx Ht Hr.
  - exists avt, avr. cbn [bin_averages_loop length].
    repeat split; trivial; intros k d;
      destruct (Nat.leb_spec idx k), (Nat.ltb_spec k (idx + 0));
      cbn [andb]; try reflexivity; lia.
  - inversion Ht as [|? ? Htb Ht']; subst.
    inversion Hr as [|? ? Hrb Hr']; subst.
    cbn [length] in Hidx.
    destruct (set_row_ok _ avt idx (np_mean_axis0 (rows_at test_apbp b)))
      as (avt1 & Et & Lt1 & Nt1); [lia|].
    destruct (set_row_ok _ avr idx (np_mean_axis0 (rows_at ref_apbp b)))
      as (avr1 & Er & Lr1 & Nr1); [lia|].
    destruct (IH (S idx) avt1 avr1) as (avt2 & avr2 & E & Lt2 & Lr2 & Nt2 & Nr2);
      try assumption; try lia.
    exists avt2, avr2. cbn [bin_averages_loop].
    rewrite (take_ok _ test_apbp (of_Z 0, of_Z 0) b Htb). cbn [bind].
    fold (rows_at test_apbp b). rewrite Et. cbn [bind].
    rewrite (take_ok _ ref_apbp (of_Z 0, of_Z 0) b Hrb). cbn [bind].
    fold (rows_at ref_apbp b). rewrite Er. cbn [bind].
    rewrite E. repeat split; try lia.
    + intros k d. rewrite Nt2, Nt1. cbn [length].
      destruct (Nat.leb_spec (S idx) k), (Nat.ltb_spec k (S idx + length bins0)),
        (Nat.leb_spec idx k), (Nat.ltb_spec k (idx + S (length bins0))),
        (Nat.eqb_spec k idx); cbn [andb]; try lia; try reflexivity.
      * replace (k - idx)%nat with (S (k - S idx)) by lia. reflexivity.
      * subst k. rewrite Nat.sub_diag. reflexivity.
    + intros k d. rewrite Nr2, Nr1. cbn [length].
      destruct (Nat.leb_spec (S idx) k), (Nat.ltb_spec k (S idx + length bins0)),
        (Nat.leb_spec idx k), (Nat.ltb_spec k (idx + S (length bins0))),
        (Nat.eqb_spec k idx); cbn [andb]; try lia; try reflexivity.
      * replace (k - idx)%nat with (S (k - S idx)) by lia. reflexivity.
      * subst k. rewrite Nat.sub_diag. reflexivity.
Qed.
End LoopFacts.

Section ArrayFacts.
Context {F : Type} `{Float64 F}.

Lemma nth_map_in {A B : Type} (f : A -> B) (l : list A) (i : nat) (d : B) (d' : A) :
  (i < length l)%nat -> nth i (map f l) d = f (nth i l d').
Proof.
  revert i; induction l as [|x l IH]; intros i Hi; simpl in Hi; [lia|].
  destruct i as [|i]; [reflexivity|]. simpl. apply IH. lia.
Qed.

Lemma length_map2 (f : F -> F -> F) (xs ys : list F) :
  length (map2 f xs ys) = Nat.min (length xs) (length ys).
Proof. unfold map2. rewrite length_map, length_combine. reflexivity. Qed.

Lemma nth_map2 (f : F -> F -> F) (xs ys : list F) (i : nat) (d dx dy : F) :
  (i < length xs)%nat -> (i < length ys)%nat ->
  nth i (map2 f xs ys) d = f (nth i xs dx) (nth i ys dy).
Proof.
  revert ys i; induction xs as [|x xs IH]; intros ys i Hx Hy; simpl in Hx; [lia|].
  destruct ys as [|y ys]; simpl in Hy; [lia|].
  destruct i as [|i]; [reflexivity|].
  unfold map2 in *. simpl. apply IH; lia.
Qed.

Lemma map_nth_seq {A : Type} (l : list A) (d : A) :
  map (fun i => nth i l d) (seq 0 (length l)) = l.
Proof.
  apply (nth_ext _ _ d d).
  - rewrite length_map, length_seq. reflexivity.
  - intros i Hi. rewrite length_map, length_seq in Hi.
    rewrite (nth_map_in _ _ _ _ 0%nat) by (rewrite length_seq; exact Hi).
    rewrite seq_nth by exact Hi. reflexivity.
Qed.

Lemma length_bin_means (xs : list (F * F)) (bs : list (list nat)) :
  length (bin_means xs bs) = length bs.
Proof. unfold bin_means. apply length_map. Qed.

Lemma nth_bin_means (xs : list (F * F)) (bs : list (list nat)) (i : nat) (d : F * F) :
  (i < length bs)%nat ->
  nth i (bin_means xs bs) d = np_mean_axis0 (rows_at xs (nth i bs [])).
Proof.
  intros Hi. unfold bin_means.
  exact (nth_map_in (fun b => np_mean_axis0 (rows_at xs b)) bs i d [] Hi).
Qed.

Lemma bin_averages_ok
  (data : list (DataColorimetry_TCS_CIE2017 F) * list (DataColorimetry_TCS_CIE2017 F))
  (bs : list (list nat)) :
  length bs = 16%nat ->
  Forall (Forall (fun i => i < length (fst data))%nat) bs ->
  Forall (Forall (fun i => i < length (snd data))%nat) bs ->
  bin_averages data bs =
  Ok (bin_means (map apbp (fst data)) bs, bin_means (map apbp (snd data)) bs).
Proof.
  intros Hb Ht Hr. unfold bin_averages.
  destruct (bin_averages_loop_ok (map apbp (fst data)) (map apbp (snd data)) 16
              bs 0 np_empty_16_2 np_empty_16_2)
    as (avt & avr & E & Lt & Lr & Nt & Nr);
    try reflexivity; try (rewrite Hb; apply Nat.le_refl);
    try (rewrite length_map; assumption).
  rewrite E. do 2 f_equal.
  - apply (nth_ext _ _ (of_Z 0, of_Z 0) (of_Z 0, of_Z 0)).
    + rewrite length_bin_means. congruence.
    + intros k Hk. rewrite Nt, nth_bin_means by lia.
      destruct (Nat.leb_spec 0 k), (Nat.ltb_spec k (0 + length bs));
        cbn [andb]; try lia.
      rewrite Nat.sub_0_r. reflexivity.
  - apply (nth_ext _ _ (of_Z 0, of_Z 0) (of_Z 0, of_Z 0)).
    + rewrite length_bin_means. congruence.
    + intros k Hk. rewrite Nr, nth_bin_means by lia.
      destruct (Nat.leb_spec 0 k), (Nat.ltb_spec k (0 + length bs));
        cbn [andb]; try lia.
      rewrite Nat.sub_0_r. reflexivity.
Qed.

Lemma local_colour_fidelities_ok (delta_E_to_R_f : F -> F)
  (delta_E_s : list F) (bs : list (list nat)) :
  length bs = 16%nat ->
  Forall (Forall (fun i => i < length delta_E_s)%nat) bs ->
  local_colour_fidelities delta_E_to_R_f delta_E_s bs =
  Ok (map delta_E_to_R_f (bin_delta_E_s delta_E_s bs)).
Proof.
  intros Hb Hd. unfold local_colour_fidelities.
  rewrite (comprehension_ok _ _ _
             (fun i => np_mean (entries_at delta_E_s (nth i bs [])))).
  - cbn [bind]. do 2 f_equal. unfold bin_delta_E_s.
    rewrite <- Hb, <- (map_map (fun i => nth i bs [])
                         (fun b => np_mean (entries_at delta_E_s b))).
    rewrite map_nth_seq. reflexivity.
  - intros i Hi. apply in_seq in Hi.
    rewrite (list_get_ok _ bs [] i) by lia. cbn [bind].
    rewrite (take_ok _ delta_E_s (of_Z 0)); [reflexivity|].
    rewrite Forall_forall in Hd. apply Hd. apply nth_In. lia.
Qed.
End ArrayFacts.

(** ** Entries of the shift arrays *)

Section ShiftFacts.
Context {F : Type} `{Float64 F}.
Local Open Scope f64_scope.

Lemma length_angles : length (angles (F := F)) = 16%nat.
Proof. unfold angles. rewrite length_map, length_seq. reflexivity. Qed.

Lemma nth_angles (i : nat) (d : F) :
  (i < 16)%nat -> nth i angles d = angle i.
Proof.
  intros Hi. unfold angles.
  rewrite (nth_map_in _ _ _ _ 0%nat) by (rewrite length_seq; exact Hi).
  rewrite seq_nth by exact Hi. reflexivity.
Qed.

Lemma nth_cosines (i : nat) (d : F) :
  (i < 16)%nat -> nth i cosines d = np_cos (angle i).
Proof.
  intros Hi. unfold cosines.
  rewrite (nth_map_in _ _ _ _ d) by (rewrite length_angles; exact Hi).
  rewrite nth_angles by exact Hi. reflexivity.
Qed.

Lemma nth_sines (i : nat) (d : F) :
  (i < 16)%nat -> nth i sines d = np_sin (angle i).
Proof.
  intros Hi. unfold sines.
  rewrite (nth_map_in _ _ _ _ d) by (rewrite length_angles; exact Hi).
  rewrite nth_angles by exact Hi. reflexivity.
Qed.

Variables averages_test averages_reference : list (F * F).
Hypothesis length_test : length averages_test = 16%nat.
Hypothesis length_reference : length averages_reference = 16%nat.

Let d0 : F * F := (of_Z 0, of_Z 0).

Lemma length_a_deltas :
  length (a_deltas averages_test averages_reference) = 16%nat.
Proof.
  unfold a_deltas.
  rewrite length_map2, !length_map, length_test, length_reference.
  reflexivity.
Qed.

Lemma length_b_deltas :
  length (b_deltas averages_test averages_reference) = 16%nat.
Proof.
  unfold b_deltas.
  rewrite length_map2, !length_map, length_test, length_reference.
  reflexivity.
Qed.

Lemma nth_a_deltas (i : nat) (d : F) :
  (i < 16)%nat ->
  nth i (a_deltas averages_test averages_reference) d =
  fst (nth i averages_test d0) - fst (nth i averages_reference d0).
Proof.
  intros Hi. unfold a_deltas.
  rewrite (nth_map2 _ _ _ _ _ d d) by (rewrite length_map; lia).
  rewrite !(nth_map_in fst _ _ d d0) by lia. reflexivity.
Qed.

Lemma nth_b_deltas (i : nat) (d : F) :
  (i < 16)%nat ->
  nth i (b_deltas averages_test averages_reference) d =
  snd (nth i averages_test d0) - snd (nth i averages_reference d0).
Proof.
  intros Hi. unfold b_deltas.
  rewrite (nth_map2 _ _ _ _ _ d d) by (rewrite length_map; lia).
  rewrite !(nth_map_in snd _ _ d d0) by lia. reflexivity.
Qed.

Lemma length_average_norms :
  length (np_linalg_norm_axis1 averages_reference) = 16%nat.
Proof. unfold np_linalg_norm_axis1. rewrite length_map. exact length_reference. Qed.

Lemma nth_average_norms (i : nat) (d : F) :
  (i < 16)%nat ->
  nth i (np_linalg_norm_axis1 averages_reference) d =
  let r := nth i averages_reference d0 in
  np_sqrt (fst r * fst r + snd r * snd r).
Proof.
  intros Hi. unfold np_linalg_norm_axis1.
  rewrite (nth_map_in _ _ _ _ d0) by lia. reflexivity.
Qed.

Lemma length_local_chromaticity_shifts :
  length (local_chromaticity_shifts averages_test averages_reference) = 16%nat.
Proof.
  unfold local_chromaticity_shifts, cosines, sines.
  repeat first [ rewrite length_map2 | rewrite length_map
               | rewrite length_a_deltas | rewrite length_b_deltas
               | rewrite length_angles | rewrite length_average_norms ].
  reflexivity.
Qed.

Lemma length_local_hue_shifts :
  length (local_hue_shifts averages_test averages_reference) = 16%nat.
Proof.
  unfold local_hue_shifts, cosines, sines.
  repeat first [ rewrite length_map2 | rewrite length_map
               | rewrite length_a_deltas | rewrite length_b_deltas
               | rewrite length_angles | rewrite length_average_norms ].
  reflexivity.
Qed.

Lemma nth_local_chromaticity_shifts (i : nat) (d : F) :
  (i < 16)%nat ->
  nth i (local_chromaticity_shifts averages_test averages_reference) d =
  let t := nth i averages_test d0 in
  let r := nth i averages_reference d0 in
  of_Z 100
  * ((fst t - fst r) * np_cos (angle i) + (snd t - snd r) * np_sin (angle i))
  / np_sqrt (fst r * fst r + snd r * snd r).
Proof.
  intros Hi. unfold local_chromaticity_shifts.
  assert (Lc : length (cosines (F := F)) = 16%nat)
    by (unfold cosines; rewrite length_map; apply length_angles).
  assert (Ls : length (sines (F := F)) = 16%nat)
    by (unfold sines; rewrite length_map; apply length_angles).
  rewrite (nth_map2 _ _ _ _ _ d d);
    [|rewrite length_map, length_map2, !length_map2,
        length_a_deltas, length_b_deltas, Lc, Ls; cbn; lia
     |rewrite length_average_norms; lia].
  rewrite (nth_map_in _ _ _ _ d)
    by (rewrite length_map2, !length_map2,
         length_a_deltas, length_b_deltas, Lc, Ls; cbn; lia).
  rewrite (nth_map2 _ _ _ _ _ d d)
    by (rewrite length_map2, ?length_a_deltas, ?length_b_deltas, ?Lc, ?Ls;
        cbn; lia).
  rewrite !(nth_map2 _ _ _ _ _ d d)
    by (rewrite ?length_a_deltas, ?length_b_deltas, ?Lc, ?Ls; lia).
  rewrite nth_a_deltas, nth_b_deltas, nth_cosines, nth_sines,
    nth_average_norms by exact Hi.
  reflexivity.
Qed.

Lemma nth_local_hue_shifts (i : nat) (d : F) :
  (i < 16)%nat ->
  nth i (local_hue_shifts averages_test averages_reference) d =
  let t := nth i averages_test d0 in
  let r := nth i averages_reference d0 in
  (- (fst t - fst r) * np_sin (angle i) + (snd t - snd r) * np_cos (angle i))
  / np_sqrt (fst r * fst r + snd r * snd r).
Proof.
  intros Hi. unfold local_hue_shifts.
  assert (Lc : length (cosines (F := F)) = 16%nat)
    by (unfold cosines; rewrite length_map; apply length_angles).
  assert (Ls : length (sines (F := F)) = 16%nat)
    by (unfold sines; rewrite length_map; apply length_angles).
  rewrite (nth_map2 _ _ _ _ _ d d);
    [|rewrite !length_map2, length_map,
        length_a_deltas, length_b_deltas, Lc, Ls; cbn; lia
     |rewrite length_average_norms; lia].
  rewrite (nth_map2 _ _ _ _ _ d d)
    by (rewrite length_map2, ?length_map, ?length_a_deltas, ?length_b_deltas,
         ?Lc, ?Ls; cbn; lia).
  rewrite !(nth_map2 _ _ _ _ _ d d)
    by (rewrite ?length_map, ?length_a_deltas, ?length_b_deltas, ?Lc, ?Ls; lia).
  rewrite (nth_map_in fopp _ _ d d) by (rewrite length_a_deltas; lia).
  rewrite nth_a_deltas, nth_b_deltas, nth_cosines, nth_sines,
    nth_average_norms by exact Hi.
  reflexivity.
Qed.
End ShiftFacts.

(** ** The entry point *)

Section RunFacts.
Variable SD : Type.
Context {F : Type} `{Float64 F}.
Variable colour_fidelity_index_CIE2017 : SD -> bool -> cfi2017.output SD F.
Variable delta_E_to_R_f : F -> F.

Lemma Ok_ANSIIESTM3018_inj (q q' : ColourQuality_Specification_ANSIIESTM3018 SD F) :
  Ok (ANSIIESTM3018 q) = Ok (ANSIIESTM3018 q') -> q = q'.
Proof. intros E. injection E as E. exact E. Qed.

Lemma run_unset (sd_test : SD) :
  colour_fidelity_index_ANSIIESTM3018
    colour_fidelity_index_CIE2017 delta_E_to_R_f sd_test false =
  Ok (CIE2017 (colour_fidelity_index_CIE2017 sd_test false)).
Proof. reflexivity. Qed.

Lemma run_set (sd_test : SD)
  (specification : ColourRendering_Specification_CIE2017 SD F) :
  colour_fidelity_index_CIE2017 sd_test true = Specification specification ->
  same_samples specification ->
  let data := cfi2017.colorimetry_data specification in
  let bs := hue_bins (snd data) in
  let avt := bin_means (map apbp (fst data)) bs in
  let avr := bin_means (map apbp (snd data)) bs in
  colour_fidelity_index_ANSIIESTM3018
    colour_fidelity_index_CIE2017 delta_E_to_R_f sd_test true =
  Ok (ANSIIESTM3018
        {| name := cfi2017.name specification;
           sd_test := sd_test;
           sd_reference := cfi2017.sd_reference specification;
           R_f := cfi2017.R_f specification;
           R_s := cfi2017.R_s specification;
           CCT := cfi2017.CCT specification;
           D_uv := cfi2017.D_uv specification;
           colorimetry_data := data;
           R_g := gamut_index avt avr;
           bins := bs;
           averages_test := avt;
           averages_reference := avr;
           average_norms := np_linalg_norm_axis1 avr;
           R_fs :=
             map delta_E_to_R_f
               (bin_delta_E_s (cfi2017.delta_E_s specification) bs);
           R_cs := local_chromaticity_shifts avt avr;
           R_hs := local_hue_shifts avt avr |}).
Proof.
  intros Hup [Htest Hdelta] data bs avt avr.
  unfold colour_fidelity_index_ANSIIESTM3018. cbn [negb].
  rewrite Hup. fold data. fold bs.
  rewrite bin_averages_ok.
  - cbn [bind fst snd]. fold avt. fold avr.
    rewrite local_colour_fidelities_ok.
    + reflexivity.
    + apply hue_bins_length.
    + fold data in Hdelta. rewrite Hdelta. apply hue_bins_bound.
  - apply hue_bins_length.
  - fold data in Htest. rewrite Htest. apply hue_bins_bound.
  - apply hue_bins_bound.
Qed.
End RunFacts.

(** ** A family of filters that splits a list *)

Section Partition.
Variable A : Type.

Lemma filter_disjoint_app (q r : A -> bool) (l : list A) :
  (forall x, In x l -> q x = true -> r x = true -> False) ->
  Permutation (filter q l ++ filter r l) (filter (fun x => q x || r x) l).
Proof.
  induction l as [|x l IH]; intros Hd; [constructor|].
  cbn [filter].
  assert (IH' := IH (fun y Hy => Hd y (or_intror Hy))).
  destruct (q x) eqn:Eq, (r x) eqn:Er; cbn [orb app].
  - exfalso. exact (Hd x (or_introl eq_refl) Eq Er).
  - constructor. exact IH'.
  - apply Permutation_sym, Permutation_cons_app, Permutation_sym. exact IH'.
  - exact IH'.
Qed.

Variable p : nat -> A -> bool.
Hypothesis p_disjoint :
  forall x b b', p b x = true -> p b' x = true -> b = b'.

Lemma concat_filters (l : list A) (k : nat) :
  Permutation (concat (map (fun b => filter (p b) l) (seq 0 k)))
              (filter (fun x => existsb (fun b => p b x) (seq 0 k)) l).
Proof.
  induction k as [|k IH].
  - cbn. induction l as [|x l IHl]; [constructor|exact IHl].
  - rewrite seq_S, map_app, concat_app. cbn [map concat Nat.add].
    rewrite app_nil_r.
    rewrite (filter_ext (fun x => existsb (fun b => p b x) (seq 0 k ++ [k]))
               (fun x => existsb (fun b => p b x) (seq 0 k) || p k x)).
    + eapply Permutation_trans;
        [apply Permutation_app_tail; exact IH|].
      apply filter_disjoint_app. intros x _ Hq Hr.
      apply existsb_exists in Hq. destruct Hq as (b & Hb & Hpb).
      apply in_seq in Hb. assert (b = k) by exact (p_disjoint x b k Hpb Hr).
      lia.
    + intros x. rewrite existsb_app. cbn. rewrite orb_false_r. reflexivity.
Qed.

Lemma concat_filters_all (l : list A) (k : nat) :
  (forall x, In x l -> exists b, (b < k)%nat /\ p b x = true) ->
  Permutation (concat (map (fun b => filter (p b) l) (seq 0 k))) l.
Proof.
  intros Hall. eapply Permutation_trans; [apply concat_filters|].
  replace (filter (fun x => existsb (fun b => p b x) (seq 0 k)) l) with l;
    [apply Permutation_refl|].
  symmetry. apply forallb_filter_id. apply forallb_forall. intros x Hx.
  apply existsb_exists. destruct (Hall x Hx) as (b & Hb & Hp).
  exists b. split; [apply in_seq; lia|exact Hp].
Qed.
End Partition.

(** ** Hue bins over the reals *)

Section HueBinsR.
Local Open Scope R_scope.

Lemma Reqb_IZR (z1 z2 : Z) : Reqb (IZR z1) (IZR z2) = Z.eqb z1 z2.
Proof.
  unfold Reqb. destruct (Req_dec_T (IZR z1) (IZR z2)) as [E|E].
  - apply eq_IZR in E. subst. symmetry. apply Z.eqb_refl.
  - symmetry. apply Z.eqb_neq. intros ->. apply E. reflexivity.
Qed.

Lemma lit_22_5 : lit 22.5 = 22.5.
Proof. reflexivity. Qed.

Lemma Int_part_bounds (r : R) : IZR (Int_part r) <= r < IZR (Int_part r) + 1.
Proof. destruct (base_Int_part r). lra. Qed.

Lemma Int_part_unique (r : R) (z : Z) :
  IZR z <= r < IZR z + 1 -> Int_part r = z.
Proof. intros Hz. symmetry. apply Int_part_spec. lra. Qed.

Lemma bin_index_bounds (hue : R) :
  22.5 * IZR (bin_index hue) <= hue < 22.5 * (IZR (bin_index hue) + 1).
Proof.
  unfold bin_index. pose proof (Int_part_bounds (hue / 22.5)) as Hb.
  set (z := IZR (Int_part (hue / 22.5))) in *.
  replace hue with (22.5 * (hue / 22.5)) at 2 3 by (field; lra).
  lra.
Qed.

Lemma bin_index_in_range (hue : R) :
  0 <= hue < 360 -> (0 <= bin_index hue < 16)%Z.
Proof.
  intros Hh. pose proof (bin_index_bounds hue) as Hb.
  split.
  - apply Z.lt_succ_r. apply lt_IZR. rewrite succ_IZR. lra.
  - apply lt_IZR. lra.
Qed.

Lemma bin_index_negative (hue : R) : hue < 0 -> (bin_index hue < 0)%Z.
Proof.
  intros Hh. pose proof (bin_index_bounds hue) as Hb.
  apply lt_IZR. lra.
Qed.

Lemma bin_index_large (hue : R) : 360 <= hue -> (16 <= bin_index hue)%Z.
Proof.
  intros Hh. pose proof (bin_index_bounds hue) as Hb.
  apply Z.lt_succ_r. apply lt_IZR. rewrite succ_IZR. lra.
Qed.

Variable reference : list (DataColorimetry_TCS_CIE2017 R).

Let label (b i : nat) : bool :=
  Z.eqb (bin_index (hue_angle (nth i reference sample0))) (Z.of_nat b).

Lemma hue_bins_filter :
  hue_bins reference =
  map (fun b => filter (label b) (seq 0 (length reference))) (seq 0 16).
Proof.
  unfold hue_bins. apply map_ext. intros b.
  rewrite (np_where_eq_filter (of_Z 0)), length_map.
  apply filter_ext_in. intros i Hi. apply in_seq in Hi.
  rewrite (nth_map_in _ _ _ _ sample0) by lia.
  unfold label, bin_index. cbn [np_floor feqb of_Z R_Float64 fdiv].
  rewrite Reqb_IZR, lit_22_5. reflexivity.
Qed.

Lemma in_bin_iff (b i : nat) :
  (b < 16)%nat ->
  in_bin reference b i <->
  (i < length reference)%nat /\
  bin_index (hue_angle (nth i reference sample0)) = Z.of_nat b.
Proof.
  intros Hb. unfold in_bin. rewrite hue_bins_filter.
  rewrite (nth_map_in _ _ _ _ 0%nat) by (rewrite length_seq; exact Hb).
  rewrite seq_nth by exact Hb. cbn [Nat.add].
  rewrite filter_In, in_seq. unfold label. rewrite Z.eqb_eq.
  split; intros [H1 H2]; split; try assumption; lia.
Qed.

Lemma label_disjoint (i b b' : nat) :
  label b i = true -> label b' i = true -> b = b'.
Proof.
  unfold label. rewrite !Z.eqb_eq. intros E1 E2.
  apply Nat2Z.inj. congruence.
Qed.

Lemma hue_bins_NoDup : NoDup (concat (hue_bins reference)).
Proof.
  rewrite hue_bins_filter.
  eapply Permutation_NoDup.
  - apply Permutation_sym. apply concat_filters. exact label_disjoint.
  - apply NoDup_filter. apply seq_NoDup.
Qed.

Lemma hue_bins_incl (i : nat) :
  In i (concat (hue_bins reference)) -> (i < length reference)%nat.
Proof.
  intros Hi. apply in_concat in Hi. destruct Hi as (b & Hb & Hi).
  pose proof (hue_bins_bound reference) as HB.
  rewrite Forall_forall in HB. specialize (HB b Hb).
  rewrite Forall_forall in HB. exact (HB i Hi).
Qed.

Lemma hue_bins_partition :
  (forall sample, In sample reference -> 0 <= hue_angle sample < 360) ->
  Permutation (concat (hue_bins reference)) (seq 0 (length reference)).
Proof.
  intros Hh. rewrite hue_bins_filter.
  apply concat_filters_all; [exact label_disjoint|].
  intros i Hi. apply in_seq in Hi.
  assert (Hs : In (nth i reference sample0) reference) by (apply nth_In; lia).
  destruct (bin_index_in_range _ (Hh _ Hs)) as [H0 H16].
  exists (Z.to_nat (bin_index (hue_angle (nth i reference sample0)))).
  split; [lia|]. unfold label. apply Z.eqb_eq. lia.
Qed.
End HueBinsR.

(** ** The concrete input *)

Section Fixture.
Local Open Scope R_scope.

Lemma bin_index_eq (hue : R) (z : Z) :
  22.5 * IZR z <= hue < 22.5 * (IZR z + 1) -> bin_index hue = z.
Proof.
  intros Hh. unfold bin_index. apply Int_part_unique.
  split.
  - apply (Rmult_le_reg_l 22.5); [lra|].
    replace (22.5 * (hue / 22.5)) with hue by (field; lra). lra.
  - apply (Rmult_lt_reg_l 22.5); [lra|].
    replace (22.5 * (hue / 22.5)) with hue by (field; lra). lra.
Qed.

Lemma fixture_bin_index (i : nat) :
  (i < 16)%nat ->
  bin_index (hue_angle (nth i fixture_samples sample0)) = Z.of_nat i.
Proof.
  intros Hi.
  do 16 (destruct i as [|i];
         [cbv [fixture_samples nth hue_angle fixture_sample JMh snd];
          apply bin_index_eq; cbn [Z.of_nat Pos.of_succ_nat Pos.succ]; lra|]).
  lia.
Qed.

Lemma fixture_hue_bins :
  hue_bins fixture_samples =
  [[0]; [1]; [2]; [3]; [4]; [5]; [6]; [7];
   [8]; [9]; [10]; [11]; [12]; [13]; [14]; [15]]%nat.
Proof.
  rewrite hue_bins_filter.
  rewrite (map_ext _ (fun b => filter (fun i => Z.eqb (Z.of_nat i) (Z.of_nat b))
                                 (seq 0 (length fixture_samples)))).
  - reflexivity.
  - intros b. apply filter_ext_in. intros i Hi. apply in_seq in Hi.
    rewrite fixture_bin_index; [reflexivity|exact (proj2 Hi)].
Qed.

Lemma fixture_bin_means :
  bin_means (map apbp fixture_samples) (hue_bins fixture_samples) =
  map apbp fixture_samples.
Proof.
  rewrite fixture_hue_bins.
  cbv [bin_means rows_at map nth fixture_samples fixture_sample apbp Jpapbp
         np_mean_axis0 np_sum_axis0 fold_left length fst snd
         fadd fdiv of_Z R_Float64 Z.of_nat Pos.of_succ_nat].
  repeat match goal with
         | |- _ :: _ = _ :: _ => f_equal
         | |- (_, _) = (_, _) => f_equal
         end; lra.
Qed.

Lemma fixture_area :
  averages_area (map apbp fixture_samples) = 31 / 2.
Proof.
  rewrite averages_area_Rsum.
  cbv [map nth fixture_samples fixture_sample apbp Jpapbp length seq
         Nat.modulo Nat.divmod Nat.add Nat.sub fst snd cross Rsum].
  lra.
Qed.
End Fixture.

(** ** NaN and the infinities in binary64 *)

Section B64Facts.
Local Open Scope float_scope.

Lemma SFcompare_refl (s : spec_float) :
s <> S754_nan -> SFcompare s s = Some Eq.
Proof.
destruct s as [sg|sg| |sg m e]; intros Hs; try congruence.
- reflexivity.
- destruct sg; reflexivity.
- cbn. destruct sg; rewrite Z.compare_refl;
    change (Pos.compare_cont Eq m m) with (Pos.compare m m);
    rewrite Pos.compare_refl; reflexivity.
Qed.

Lemma is_nan_Prim2SF (x : float) : is_nan x = true <-> Prim2SF x = S754_nan.
Proof.
unfold is_nan. rewrite FloatAxioms.eqb_spec. unfold SFeqb. split.
- intros Hn. destruct (Prim2SF x) eqn:E; try reflexivity;
    rewrite SFcompare_refl in Hn by congruence; discriminate.
- intros ->. reflexivity.
Qed.

Lemma is_infinity_Prim2SF (x : float) :
is_infinity x = true <-> exists s, Prim2SF x = S754_infinity s.
Proof.
unfold is_infinity. rewrite FloatAxioms.eqb_spec, abs_spec.
change (Prim2SF infinity) with (S754_infinity false).
destruct (Prim2SF x) as [sg|sg| |sg m e]; cbn; split;
  try discriminate; try (intros [s Hs]; discriminate); eauto.
Qed.

Lemma is_zero_Prim2SF (x : float) :
is_zero x = true <-> exists s, Prim2SF x = S754_zero s.
Proof.
unfold is_zero. rewrite FloatAxioms.eqb_spec.
change (Prim2SF zero) with (S754_zero false).
destruct (Prim2SF x) as [sg|sg| |sg m e]; cbn; split;
  try discriminate; try (intros [s Hs]; discriminate); eauto;
  destruct sg; discriminate.
Qed.

Lemma undefined_Prim2SF (x : float) :
undefined x = true <->
Prim2SF x = S754_nan \/ exists s, Prim2SF x = S754_infinity s.
Proof.
unfold undefined. rewrite Bool.orb_true_iff, is_nan_Prim2SF, is_infinity_Prim2SF.
reflexivity.
Qed.

Lemma add_nan_l (y : float) : nan + y = nan.
Proof. apply Prim2SF_inj. rewrite add_spec. reflexivity. Qed.

Lemma add_nan_r (x : float) : x + nan = nan.
Proof.
apply Prim2SF_inj. rewrite add_spec.
change (Prim2SF nan) with S754_nan. destruct (Prim2SF x); reflexivity.
Qed.

Lemma sub_nan_l (y : float) : nan - y = nan.
Proof. apply Prim2SF_inj. rewrite sub_spec. reflexivity. Qed.

Lemma mul_nan_l (y : float) : nan * y = nan.
Proof. apply Prim2SF_inj. rewrite mul_spec. reflexivity. Qed.

Lemma mul_nan_r (x : float) : x * nan = nan.
Proof.
apply Prim2SF_inj. rewrite mul_spec.
change (Prim2SF nan) with S754_nan. destruct (Prim2SF x); reflexivity.
Qed.

Lemma div_nan_l (y : float) : nan / y = nan.
Proof. apply Prim2SF_inj. rewrite div_spec. reflexivity. Qed.

Lemma div_zero_undefined (x z : float) :
is_zero z = true -> undefined (x / z) = true.
Proof.
intros Hz. apply is_zero_Prim2SF in Hz. destruct Hz as [s Hs].
apply undefined_Prim2SF. rewrite div_spec, Hs.
destruct (Prim2SF x) as [sg|sg| |sg m e]; cbn; eauto.
Qed.

Lemma mul_100_undefined (y : float) :
undefined y = true -> undefined (100 * y) = true.
Proof.
intros Hy. apply undefined_Prim2SF in Hy. apply undefined_Prim2SF.
rewrite mul_spec.
change (Prim2SF 100) with (S754_finite false 7036874417766400 (-46)).
destruct Hy as [-> | [s ->]]; cbn; eauto.
Qed.

Lemma fold_left_add_nan (xs : list float) : fold_left PrimFloat.add xs nan = nan.
Proof.
induction xs as [|x xs IH]; [reflexivity|].
cbn [fold_left]. rewrite add_nan_l. exact IH.
Qed.

Lemma fold_left_add_In_nan (xs : list float) (a : float) :
In nan xs -> fold_left PrimFloat.add xs a = nan.
Proof.
revert a; induction xs as [|x xs IH]; intros a Hin; [destruct Hin|].
cbn [fold_left]. destruct Hin as [-> | Hin].
- rewrite add_nan_r. apply fold_left_add_nan.
- apply IH. exact Hin.
Qed.
End B64Facts.

(** ** Radial and tangential projections *)

Section ShiftProjections.
Local Open Scope R_scope.

Lemma projections_norm (v : R * R) (i : nat) :
  radial v i * radial v i + tangential v i * tangential v i = fst v * fst v + snd v * snd v.
Proof.
  unfold radial, tangential.
  pose proof (sin2_cos2 (angle i)) as Hsc. unfold Rsqr in Hsc.
  set (c := cos (angle i)) in *. set (s := sin (angle i)) in *.
  replace (fst v * fst v + snd v * snd v) with ((fst v * fst v + snd v * snd v) * (s * s + c * c)) by (rewrite Hsc; ring).
  ring.
Qed.

Lemma euclidean_norm_radial (v : R * R) (i : nat) :
  tangential v i = 0 -> euclidean_norm v = Rabs (radial v i).
Proof.
  intros Ht. unfold euclidean_norm. rewrite <- (projections_norm v i), Ht.
  replace (radial v i * radial v i + 0 * 0) with (Rsqr (radial v i)) by (unfold Rsqr; ring).
  apply sqrt_Rsqr_abs.
Qed.

Lemma euclidean_norm_tangential (v : R * R) (i : nat) :
  radial v i = 0 -> euclidean_norm v = Rabs (tangential v i).
Proof.
  intros Hr. unfold euclidean_norm. rewrite <- (projections_norm v i), Hr.
  replace (0 * 0 + tangential v i * tangential v i) with (Rsqr (tangential v i)) by (unfold Rsqr; ring).
  apply sqrt_Rsqr_abs.
Qed.

Section Shifts.
Variables averages_test averages_reference : list (R * R).
Hypothesis length_test : length averages_test = 16%nat.
Hypothesis length_reference : length averages_reference = 16%nat.
Variable i : nat.
Hypothesis i_lt : (i < 16)%nat.

Let v := average_delta averages_test averages_reference i.
Let norm := euclidean_norm (nth i averages_reference (0, 0)).

Lemma R_cs_radial :
  nth i (local_chromaticity_shifts averages_test averages_reference) 0 = 100 * radial v i / norm.
Proof.
  rewrite (nth_local_chromaticity_shifts averages_test averages_reference length_test length_reference i 0 i_lt).
  reflexivity.
Qed.

Lemma R_hs_tangential :
  nth i (local_hue_shifts averages_test averages_reference) 0 = tangential v i / norm.
Proof.
  rewrite (nth_local_hue_shifts averages_test averages_reference length_test length_reference i 0 i_lt).
  unfold tangential, v, average_delta, norm, euclidean_norm. cbn -[angle].
  f_equal. ring.
Qed.

End Shifts.

Lemma cx_norm : euclidean_norm (nth 0 cx_reference (0, 0)) = 2.
Proof.
  unfold euclidean_norm, cx_reference. cbn [nth fst snd].
  pose proof (sin2_cos2 (angle 0)) as Hsc. unfold Rsqr in Hsc.
  replace (2 * cos (angle 0) * (2 * cos (angle 0)) + 2 * sin (angle 0) * (2 * sin (angle 0)))
    with (2 * 2 * (sin (angle 0) * sin (angle 0) + cos (angle 0) * cos (angle 0))) by ring.
  rewrite Hsc, Rmult_1_r. apply sqrt_square. lra.
Qed.

Lemma cx_delta_norm : euclidean_norm (average_delta cx_test cx_reference 0) = 1.
Proof.
  unfold euclidean_norm, average_delta, cx_test, cx_reference. cbn [nth fst snd].
  pose proof (sin2_cos2 (angle 0)) as Hsc. unfold Rsqr in Hsc.
  replace ((cos (angle 0) - 2 * cos (angle 0)) * (cos (angle 0) - 2 * cos (angle 0)) +
           (sin (angle 0) - 2 * sin (angle 0)) * (sin (angle 0) - 2 * sin (angle 0)))
    with (sin (angle 0) * sin (angle 0) + cos (angle 0) * cos (angle 0)) by ring.
  rewrite Hsc. apply sqrt_1.
Qed.

Lemma cx_tangential : tangential (average_delta cx_test cx_reference 0) 0 = 0.
Proof. unfold tangential, average_delta, cx_test, cx_reference. cbn [nth fst snd]. ring. Qed.

Lemma cx_radial : radial (average_delta cx_test cx_reference 0) 0 = -1.
Proof.
  unfold radial, average_delta, cx_test, cx_reference. cbn [nth fst snd].
  pose proof (sin2_cos2 (angle 0)) as Hsc. unfold Rsqr in Hsc.
  replace ((cos (angle 0) - 2 * cos (angle 0)) * cos (angle 0) + (sin (angle 0) - 2 * sin (angle 0)) * sin (angle 0))
    with (- (sin (angle 0) * sin (angle 0) + cos (angle 0) * cos (angle 0))) by ring.
  rewrite Hsc. reflexivity.
Qed.

Lemma cx_R_cs : nth 0 (local_chromaticity_shifts cx_test cx_reference) 0 = -50.
Proof.
  rewrite R_cs_radial by (reflexivity || lia).
  rewrite cx_radial, cx_norm. lra.
Qed.


End ShiftProjections.

(** ** The pipeline in binary64 *)

Section B64Pipeline.
Local Open Scope float_scope.
Variables libm_cos libm_sin : float -> float.

Let b64 : Float64 float := B64_Float64 libm_cos libm_sin.
#[local] Existing Instance b64.

Lemma np_mean_empty : np_mean (F := float) [] = nan.
Proof. reflexivity. Qed.

Lemma np_mean_axis0_empty : np_mean_axis0 (F := float) [] = (nan, nan).
Proof. reflexivity. Qed.

(** A NaN among the running sums or the entries still to read stays
    among them through the unrolled loop. *)
Lemma add_blocks_nan (n : nat) :
  forall (a : list float) (r0 r1 r2 r3 r4 r5 r6 r7 : float),
    (length a <= n)%nat ->
    In nan ([r0; r1; r2; r3; r4; r5; r6; r7] ++ a) ->
    forall (s0 s1 s2 s3 s4 s5 s6 s7 : float) (rest : list float),
      add_blocks (r0, r1, r2, r3, r4, r5, r6, r7) a =
      ((s0, s1, s2, s3, s4, s5, s6, s7), rest) ->
      In nan ([s0; s1; s2; s3; s4; s5; s6; s7] ++ rest).
Proof.
  induction n as [|n IH]; intros a r0 r1 r2 r3 r4 r5 r6 r7 Hlen Hin
    s0 s1 s2 s3 s4 s5 s6 s7 rest Hrun;
    destruct a as [|a0 [|a1 [|a2 [|a3 [|a4 [|a5 [|a6 [|a7 a']]]]]]]];
    cbn [add_blocks] in Hrun;
    try (injection Hrun as <- <- <- <- <- <- <- <- <-; exact Hin);
    cbn [length] in Hlen; [lia|].
  apply IH in Hrun; [exact Hrun|lia|].
  cbn [fadd b64 B64_Float64].
  cbn [app In] in Hin |- *.
  decompose [or] Hin; subst;
    rewrite ?add_nan_l, ?add_nan_r; auto 20.
Qed.

Lemma pairwise_block_nan (a : list float) :
  In nan a -> pairwise_block a = nan.
Proof.
  intros Hin.
  destruct a as [|a0 [|a1 [|a2 [|a3 [|a4 [|a5 [|a6 [|a7 a']]]]]]]];
    unfold pairwise_block;
    try (apply fold_left_add_In_nan; exact Hin).
  destruct (add_blocks (a0, a1, a2, a3, a4, a5, a6, a7) a')
    as [[[[[[[[s0 s1] s2] s3] s4] s5] s6] s7] rest] eqn:Hrun.
  apply (add_blocks_nan (length a') a') in Hrun; [|lia|exact Hin].
  cbn [fadd b64 B64_Float64].
  cbn [app In] in Hrun.
  decompose [or] Hrun; subst;
    repeat (rewrite add_nan_l || rewrite add_nan_r);
    try apply fold_left_add_nan.
  apply fold_left_add_In_nan. assumption.
Qed.

Lemma pairwise_sum_rec_nan (fuel : nat) (a : list float) :
  In nan a -> pairwise_sum_rec fuel a = nan.
Proof.
  revert a. induction fuel as [|fuel IH]; intros a Hin;
    cbn [pairwise_sum_rec].
  - apply pairwise_block_nan, Hin.
  - destruct (Nat.leb (length a) 128); [apply pairwise_block_nan, Hin|].
    cbn [fadd b64 B64_Float64].
    rewrite <- (firstn_skipn (length a / 2 - (length a / 2) mod 8) a) in Hin.
    apply in_app_or in Hin. destruct Hin as [Hin | Hin].
    + rewrite (IH _ Hin). apply add_nan_l.
    + rewrite (IH (skipn _ a) Hin). apply add_nan_r.
Qed.

(** A NaN entry makes [np.sum] NaN, wherever it stands. *)
Lemma np_sum_nan (xs : list float) : In nan xs -> np_sum xs = nan.
Proof.
  intros Hin. unfold np_sum, pairwise_sum.
  rewrite (pairwise_sum_rec_nan _ xs Hin). apply add_nan_r.
Qed.

Lemma averages_area_nan (averages : list (float * float)) (b : nat) :
  (b < length averages)%nat ->
  nth b averages (of_Z 0, of_Z 0) = (nan, nan) ->
  averages_area averages = nan.
Proof.
  intros Hb Hnan. unfold averages_area.
  apply np_sum_nan. apply in_map_iff.
  exists b. split; [|apply in_seq; lia].
  rewrite Hnan. cbn [fst snd fmul fsub fdiv b64 B64_Float64].
  rewrite !mul_nan_l, sub_nan_l, div_nan_l. reflexivity.
Qed.

Lemma shifts_nan (averages_test averages_reference : list (float * float)) (b : nat) :
  length averages_test = 16%nat -> length averages_reference = 16%nat ->
  (b < 16)%nat ->
  nth b averages_test (of_Z 0, of_Z 0) = (nan, nan) ->
  nth b (local_chromaticity_shifts averages_test averages_reference) 0 = nan /\
  nth b (local_hue_shifts averages_test averages_reference) 0 = nan.
Proof.
  intros Lt Lr Hb Hnan. split.
  - rewrite (nth_local_chromaticity_shifts averages_test averages_reference Lt Lr b 0 Hb).
    cbv zeta. rewrite Hnan. cbn [fst snd fmul fsub fdiv fadd b64 B64_Float64].
    rewrite !sub_nan_l, !mul_nan_l, add_nan_l, mul_nan_r, div_nan_l. reflexivity.
  - rewrite (nth_local_hue_shifts averages_test averages_reference Lt Lr b 0 Hb).
    cbv zeta. rewrite Hnan. cbn [fst snd fmul fsub fdiv fadd fopp b64 B64_Float64].
    rewrite !sub_nan_l. change (- nan) with nan.
    rewrite !mul_nan_l, add_nan_l, div_nan_l. reflexivity.
Qed.

Variable SD : Type.
Variable colour_fidelity_index_CIE2017 : SD -> bool -> cfi2017.output SD float.
Variable delta_E_to_R_f : float -> float.

(** C8: in binary64, for every input with a precondition violation the
    computation raises no error and returns a specification whose affected entries
    are undefined.  In bin [b] with zero members, the two averages, the
    reference norm, [R_cs[b]] and [R_hs[b]] are NaN, [R_fs[b]] is the
    transform of NaN, and so is [R_g] NaN; where the reference average of
    a bin has zero norm, [R_cs[b]] and [R_hs[b]] are NaN or infinite; where
    the reference polygon has zero area, [R_g] is NaN or infinite. *)
Theorem undefined_results_propagate
  (sd_test : SD) (specification : ColourRendering_Specification_CIE2017 SD float) :
  colour_fidelity_index_CIE2017 sd_test true = Specification specification ->
  same_samples specification ->
  exists q,
    colour_fidelity_index_ANSIIESTM3018
      colour_fidelity_index_CIE2017 delta_E_to_R_f sd_test true
    = Ok (ANSIIESTM3018 q) /\
    (forall b, (b < 16)%nat -> nth b (bins q) [] = [] ->
       nth b (averages_test q) (0, 0) = (nan, nan) /\
       nth b (averages_reference q) (0, 0) = (nan, nan) /\
       nth b (average_norms q) 0 = nan /\
       nth b (R_fs q) 0 = delta_E_to_R_f nan /\
       nth b (R_cs q) 0 = nan /\
       nth b (R_hs q) 0 = nan /\
       R_g q = nan) /\
    (forall b, (b < 16)%nat ->
       is_zero (nth b (average_norms q) 0) = true ->
       undefined (nth b (R_cs q) 0) = true /\
       undefined (nth b (R_hs q) 0) = true) /\
    (is_zero (averages_area (averages_reference q)) = true ->
     undefined (R_g q) = true).
Proof.
  intros Hup Hsame.
  pose proof (run_set SD colour_fidelity_index_CIE2017 delta_E_to_R_f
                sd_test specification Hup Hsame) as Hrun.
  cbv zeta in Hrun.
  set (data := cfi2017.colorimetry_data specification) in *.
  set (bs := hue_bins (snd data)) in *.
  set (avt := bin_means (map apbp (fst data)) bs) in *.
  set (avr := bin_means (map apbp (snd data)) bs) in *.
  assert (Lbs : length bs = 16%nat) by apply hue_bins_length.
  assert (Lt : length avt = 16%nat)
    by (unfold avt; rewrite length_bin_means; exact Lbs).
  assert (Lr : length avr = 16%nat)
    by (unfold avr; rewrite length_bin_means; exact Lbs).
  eexists. split; [exact Hrun|]. cbn [bins averages_test averages_reference
    average_norms R_fs R_cs R_hs R_g].
  split; [|split].
  - intros b Hb Hempty.
    assert (Et : nth b avt (0, 0) = (nan, nan)).
    { unfold avt. rewrite nth_bin_means by lia. rewrite Hempty. reflexivity. }
    assert (Er : nth b avr (0, 0) = (nan, nan)).
    { unfold avr. rewrite nth_bin_means by lia. rewrite Hempty. reflexivity. }
    destruct (shifts_nan avt avr b Lt Lr Hb Et) as [Ecs Ehs].
    repeat split; try assumption.
    + rewrite (nth_average_norms avt avr Lt Lr b 0 Hb). cbv zeta.
      change (of_Z 0, of_Z 0) with (0, 0). rewrite Er. reflexivity.
    + rewrite (nth_map_in _ _ _ _ 0)
        by (unfold bin_delta_E_s; rewrite length_map; lia).
      unfold bin_delta_E_s.
      rewrite (nth_map_in (fun b0 => np_mean (entries_at _ b0)) _ _ _ []) by lia.
      rewrite Hempty. reflexivity.
    + unfold gamut_index.
      rewrite (averages_area_nan avt b) by (lia || exact Et).
      cbn [fmul fdiv b64 B64_Float64].
      rewrite div_nan_l, mul_nan_r. reflexivity.
  - intros b Hb Hzero.
    rewrite (nth_local_chromaticity_shifts avt avr Lt Lr b 0 Hb).
    rewrite (nth_local_hue_shifts avt avr Lt Lr b 0 Hb).
    rewrite (nth_average_norms avt avr Lt Lr b 0 Hb) in Hzero.
    cbv zeta in *. cbn [fdiv b64 B64_Float64].
    split; apply div_zero_undefined; exact Hzero.
  - intros Hzero. unfold gamut_index. cbn [fmul fdiv of_Z b64 B64_Float64].
    change (b64_of_Z 100) with 100.
    apply mul_100_undefined, div_zero_undefined. exact Hzero.
Qed.
End B64Pipeline.

(** * The specification's statements *)

Section Statements.
Local Open Scope R_scope.

(** C1: for every sequence of 16 two-component points, [averages_area]
    returns the signed area of the shoelace formula: the sum over [i] from
    0 to 15 of [(u_i.x * v_i.y - u_i.y * v_i.x) / 2], with [u_i] the point
    [i] and [v_i] the point [(i + 1) mod 16]. *)
Theorem averages_area_is_shoelace (averages : list (R * R)) :
  length averages = 16%nat ->
  averages_area averages = shoelace16 averages.
Proof. exact (averages_area_shoelace16 averages). Qed.

Lemma averages_area_is_shoelace_witness :
  length (map apbp fixture_samples) = 16%nat /\
  averages_area (map apbp fixture_samples)
  = shoelace16 (map apbp fixture_samples).
Proof.
  split; [reflexivity|]. apply averages_area_is_shoelace. reflexivity.
Defined.

(** C7, amended: in exact arithmetic (over the reals, where no operation
    rounds), for every sequence of 16 two-component points, reversing the
    order of the points negates the value of [averages_area]. *)
Theorem averages_area_reversed (averages : list (R * R)) :
  length averages = 16%nat ->
  averages_area (rev averages) = - averages_area averages.
Proof.
  intros _.
  rewrite !averages_area_Rsum, length_rev.
  remember (length averages) as N eqn:HN.
  destruct N as [|n]; [simpl; lra|].
  set (T := fun j => cross (nth j averages (0, 0)) (nth ((j + 1) mod S n) averages (0, 0))).
  rewrite seq_S, !map_app, !Rsum_app, Nat.add_0_l. cbn [map Rsum].
  assert (Hlast : (n + 1) mod S n = 0%nat).
  { replace (n + 1)%nat with (S n) by lia. apply Nat.Div0.mod_same. }
  rewrite Hlast.
  rewrite (rev_nth averages (0,0)) by lia. rewrite (rev_nth averages (0,0)) by lia.
  rewrite <- HN. replace (S n - S n)%nat with 0%nat by lia.
  replace (S n - 1)%nat with n by lia.
  rewrite (cross_swap (nth 0 averages (0,0))).
  rewrite (map_ext_in _ (fun i => - T (n - 1 - i)%nat)).
  - rewrite Rsum_map_opp, Rsum_seq_reflect.
    assert (HT : T n = cross (nth n averages (0, 0)) (nth 0 averages (0, 0)))
      by (unfold T; rewrite Hlast; reflexivity).
    rewrite HT. lra.
  - intros i Hi. apply in_seq in Hi. unfold T.
    rewrite (Nat.mod_small (i + 1)) by lia.
    rewrite (Nat.mod_small (n - 1 - i + 1)) by lia.
    rewrite !(rev_nth averages (0,0)) by lia. rewrite <- HN.
    rewrite cross_swap. do 2 f_equal; f_equal; lia.
Qed.

Lemma averages_area_reversed_witness :
  length (map apbp fixture_samples) = 16%nat /\
  averages_area (rev (map apbp fixture_samples))
  = - averages_area (map apbp fixture_samples).
Proof.
  split; [reflexivity|]. apply averages_area_reversed. reflexivity.
Defined.

(** C3: for [N >= 1] samples whose reference hue angles all lie in
    [0, 360), the 16 bins partition the index range: their concatenation
    is a permutation of [0 .. N-1], and every index lies in exactly one
    bin. *)
Theorem hue_bins_partition_range
  (reference : list (DataColorimetry_TCS_CIE2017 R)) :
  (1 <= length reference)%nat ->
  (forall sample, In sample reference -> 0 <= hue_angle sample < 360) ->
  length (hue_bins reference) = 16%nat /\
  Permutation (concat (hue_bins reference)) (seq 0 (length reference)) /\
  forall i, (i < length reference)%nat ->
    exists b, (b < 16)%nat /\ in_bin reference b i /\
      forall b', (b' < 16)%nat -> in_bin reference b' i -> b' = b.
Proof.
  intros _ Hh. split; [apply hue_bins_length|].
  split; [apply hue_bins_partition; exact Hh|].
  intros i Hi.
  assert (Hs : In (nth i reference sample0) reference) by (apply nth_In; lia).
  destruct (bin_index_in_range _ (Hh _ Hs)) as [H0 H16].
  exists (Z.to_nat (bin_index (hue_angle (nth i reference sample0)))).
  split; [lia|]. split.
  - apply in_bin_iff; [lia|]. split; [exact Hi|lia].
  - intros b' Hb' Hin. apply in_bin_iff in Hin; [|exact Hb'].
    destruct Hin as [_ Hin]. rewrite Hin. rewrite Nat2Z.id. reflexivity.
Qed.

Lemma fixture_hue_angles (sample : DataColorimetry_TCS_CIE2017 R) :
  In sample fixture_samples -> 0 <= hue_angle sample < 360.
Proof.
  unfold fixture_samples. cbn [In]. intros Hin.
  repeat (destruct Hin as [<- | Hin];
          [cbv [hue_angle fixture_sample JMh snd]; lra|]).
  destruct Hin.
Qed.

Lemma hue_bins_partition_range_witness :
  length (hue_bins fixture_samples) = 16%nat /\
  Permutation (concat (hue_bins fixture_samples))
    (seq 0 (length fixture_samples)) /\
  forall i, (i < length fixture_samples)%nat ->
    exists b, (b < 16)%nat /\ in_bin fixture_samples b i /\
      forall b', (b' < 16)%nat -> in_bin fixture_samples b' i -> b' = b.
Proof.
  apply hue_bins_partition_range.
  - cbn [fixture_samples length]. lia.
  - exact fixture_hue_angles.
Defined.

(** C10: for every input, whatever the hue angles, the 16 bins are
    pairwise disjoint: no index occurs twice in their concatenation, and
    an index that lies in two bins lies in one and the same bin. *)
Theorem hue_bins_pairwise_disjoint
  (reference : list (DataColorimetry_TCS_CIE2017 R)) :
  NoDup (concat (hue_bins reference)) /\
  forall b1 b2 i, (b1 < 16)%nat -> (b2 < 16)%nat ->
    in_bin reference b1 i -> in_bin reference b2 i -> b1 = b2.
Proof.
  split; [apply hue_bins_NoDup|].
  intros b1 b2 i Hb1 Hb2 H1 H2.
  apply in_bin_iff in H1; [|exact Hb1]. apply in_bin_iff in H2; [|exact Hb2].
  destruct H1 as [_ H1]. destruct H2 as [_ H2].
  apply Nat2Z.inj. congruence.
Qed.

(** C2: the gamut index [R_g] of the returned specification is 100 times
    the ratio of the shoelace area of [averages_test] over that of
    [averages_reference]; when the two arrays agree and the common
    polygon has non-zero area, [R_g] is 100. *)
Theorem gamut_index_is_area_ratio (SD : Type)
  (colour_fidelity_index_CIE2017 : SD -> bool -> cfi2017.output SD R)
  (delta_E_to_R_f : R -> R) (sd_test : SD)
  (specification : ColourRendering_Specification_CIE2017 SD R) :
  colour_fidelity_index_CIE2017 sd_test true = Specification specification ->
  same_samples specification ->
  exists q,
    colour_fidelity_index_ANSIIESTM3018
      colour_fidelity_index_CIE2017 delta_E_to_R_f sd_test true
    = Ok (ANSIIESTM3018 q) /\
    R_g q =
    100 * (shoelace16 (averages_test q) / shoelace16 (averages_reference q)) /\
    (averages_test q = averages_reference q ->
     shoelace16 (averages_reference q) <> 0 ->
     R_g q = 100).
Proof.
  intros Hup Hsame.
  pose proof (run_set SD colour_fidelity_index_CIE2017 delta_E_to_R_f
                sd_test specification Hup Hsame) as Hrun.
  cbv zeta in Hrun. eexists. split; [exact Hrun|].
  cbn [R_g averages_test averages_reference].
  set (bs := hue_bins (snd (cfi2017.colorimetry_data specification))).
  set (avt := bin_means _ bs). set (avr := bin_means _ bs).
  assert (Lt : length avt = 16%nat)
    by (unfold avt; rewrite length_bin_means; apply hue_bins_length).
  assert (Lr : length avr = 16%nat)
    by (unfold avr; rewrite length_bin_means; apply hue_bins_length).
  assert (Hg : gamut_index avt avr = 100 * (shoelace16 avt / shoelace16 avr)).
  { unfold gamut_index.
    rewrite (averages_area_shoelace16 avt Lt), (averages_area_shoelace16 avr Lr).
    reflexivity. }
  split; [exact Hg|].
  intros Heq Hnz. rewrite Hg, Heq. field. exact Hnz.
Qed.

Lemma gamut_index_is_area_ratio_witness :
  exists q,
    colour_fidelity_index_ANSIIESTM3018 fixture_CIE2017 (fun x => x) tt true
    = Ok (ANSIIESTM3018 q) /\
    shoelace16 (averages_reference q) = 31 / 2 /\
    R_g q = 100.
Proof.
  destruct (gamut_index_is_area_ratio unit fixture_CIE2017 (fun x => x) tt
              fixture_specification eq_refl (conj eq_refl eq_refl))
    as (q & Hrun & _ & H100).
  exists q. split; [exact Hrun|].
  rewrite (run_set unit fixture_CIE2017 (fun x => x) tt fixture_specification
             eq_refl (conj eq_refl eq_refl)) in Hrun.
  cbv zeta in Hrun. apply Ok_ANSIIESTM3018_inj in Hrun. subst q.
  cbn [averages_test averages_reference R_g fixture_specification
         specification_of cfi2017.colorimetry_data fst snd] in *.
  assert (Harea : shoelace16 (bin_means (map apbp fixture_samples)
                                (hue_bins fixture_samples)) = 31 / 2).
  { rewrite fixture_bin_means.
    rewrite <- averages_area_shoelace16 by reflexivity.
    exact fixture_area. }
  split; [exact Harea|].
  apply H100; [reflexivity|]. rewrite Harea. lra.
Defined.

(** C9, amended: in exact arithmetic (over the reals, where the quotient
    [hue_angle / 22.5] is not rounded), a sample whose reference hue angle
    is negative or at least 360 has a bin label outside [0 .. 15]; no
    error is raised, its index lies in none of the 16 bins, and the union
    of the bins, a subset of the index range, misses it. *)
Theorem out_of_range_hue_in_no_bin (SD : Type)
  (colour_fidelity_index_CIE2017 : SD -> bool -> cfi2017.output SD R)
  (delta_E_to_R_f : R -> R) (sd_test : SD)
  (specification : ColourRendering_Specification_CIE2017 SD R) (i : nat) :
  let reference := snd (cfi2017.colorimetry_data specification) in
  colour_fidelity_index_CIE2017 sd_test true = Specification specification ->
  same_samples specification ->
  (i < length reference)%nat ->
  hue_angle (nth i reference sample0) < 0 \/
  360 <= hue_angle (nth i reference sample0) ->
  exists q,
    colour_fidelity_index_ANSIIESTM3018
      colour_fidelity_index_CIE2017 delta_E_to_R_f sd_test true
    = Ok (ANSIIESTM3018 q) /\
    ~ (0 <= bin_index (hue_angle (nth i reference sample0)) < 16)%Z /\
    (forall b, (b < 16)%nat -> ~ In i (nth b (bins q) [])) /\
    ~ In i (concat (bins q)) /\
    (forall j, In j (concat (bins q)) -> (j < length reference)%nat).
Proof.
  intros reference Hup Hsame Hi Hhue.
  pose proof (run_set SD colour_fidelity_index_CIE2017 delta_E_to_R_f
                sd_test specification Hup Hsame) as Hrun.
  cbv zeta in Hrun. eexists. split; [exact Hrun|]. cbn [bins].
  fold reference.
  assert (Hout : ~ (0 <= bin_index (hue_angle (nth i reference sample0)) < 16)%Z).
  { destruct Hhue as [Hneg | Hbig].
    - pose proof (bin_index_negative _ Hneg). lia.
    - pose proof (bin_index_large _ Hbig). lia. }
  assert (Hnone : forall b, (b < 16)%nat -> ~ In i (nth b (hue_bins reference) [])).
  { intros b Hb Hin. apply (in_bin_iff reference b i Hb) in Hin.
    destruct Hin as [_ Hin]. apply Hout. rewrite Hin. lia. }
  split; [exact Hout|]. split; [exact Hnone|]. split.
  - intros Hin. apply in_concat in Hin. destruct Hin as (l & Hl & Hil).
    apply (In_nth _ _ []) in Hl. destruct Hl as (b & Hb & <-).
    rewrite hue_bins_length in Hb. exact (Hnone b Hb Hil).
  - apply hue_bins_incl.
Qed.
Lemma out_of_range_hue_in_no_bin_witness :
  exists q,
    colour_fidelity_index_ANSIIESTM3018
      (CIE2017_of stray_samples) (fun x => x) tt true
    = Ok (ANSIIESTM3018 q) /\
    ~ (0 <= bin_index (-5) < 16)%Z /\
    (forall b, (b < 16)%nat -> ~ In 0%nat (nth b (bins q) [])) /\
    ~ In 0%nat (concat (bins q)) /\
    (forall j, In j (concat (bins q)) -> (j < 3)%nat).
Proof.
  apply (out_of_range_hue_in_no_bin unit (CIE2017_of stray_samples)
           (fun x => x) tt (specification_of stray_samples) 0
           eq_refl (conj eq_refl eq_refl)).
  - cbn [specification_of cfi2017.colorimetry_data snd stray_samples length].
    lia.
  - left. cbv [specification_of cfi2017.colorimetry_data snd stray_samples
                 nth hue_angle fixture_sample JMh]. lra.
Defined.

(** C4, as the specification words it, fails: in bin 0 the delta below is
    purely radial (its tangential projection is zero) and the reference
    norm is 2, yet [R_cs[0]] is -50 where [100 * |delta| / norm] is 50: the
    delta points inward. *)
Lemma shift_radial_inward :
  length cx_test = 16%nat /\ length cx_reference = 16%nat /\
  euclidean_norm (nth 0 cx_reference (0, 0)) <> 0 /\
  tangential (average_delta cx_test cx_reference 0) 0 = 0 /\
  nth 0 (local_chromaticity_shifts cx_test cx_reference) 0 = -50 /\
  100 * euclidean_norm (average_delta cx_test cx_reference 0)
  / euclidean_norm (nth 0 cx_reference (0, 0)) = 50 /\
  nth 0 (local_chromaticity_shifts cx_test cx_reference) 0 <>
  100 * euclidean_norm (average_delta cx_test cx_reference 0)
  / euclidean_norm (nth 0 cx_reference (0, 0)).
Proof.
  rewrite cx_R_cs, cx_delta_norm, cx_norm, cx_tangential.
  repeat split; try reflexivity; lra.
Qed.

(** C4, amended: for every bin [i] with non-zero reference-average norm,
    when the average-delta vector is purely radial, [R_hs[i] = 0] and
    [R_cs[i]] is [100 * |delta| / norm] up to the sign of the radial
    projection (plus when the delta points outward, minus when inward);
    when it is purely tangential, [R_cs[i] = 0] and [R_hs[i]] is
    [|delta| / norm], not scaled by 100, up to the sign of the tangential
    projection. *)
Theorem shift_of_radial_or_tangential_delta
  (averages_test averages_reference : list (R * R)) (i : nat) :
  length averages_test = 16%nat -> length averages_reference = 16%nat ->
  (i < 16)%nat ->
  euclidean_norm (nth i averages_reference (0, 0)) <> 0 ->
  let v := average_delta averages_test averages_reference i in
  let norm := euclidean_norm (nth i averages_reference (0, 0)) in
  let R_cs_i :=
    nth i (local_chromaticity_shifts averages_test averages_reference) 0 in
  let R_hs_i := nth i (local_hue_shifts averages_test averages_reference) 0 in
  (tangential v i = 0 ->
   R_hs_i = 0 /\ Rabs R_cs_i = 100 * euclidean_norm v / norm /\
   (0 <= radial v i -> R_cs_i = 100 * euclidean_norm v / norm) /\
   (radial v i <= 0 -> R_cs_i = - (100 * euclidean_norm v / norm))) /\
  (radial v i = 0 ->
   R_cs_i = 0 /\ Rabs R_hs_i = euclidean_norm v / norm /\
   (0 <= tangential v i -> R_hs_i = euclidean_norm v / norm) /\
   (tangential v i <= 0 -> R_hs_i = - (euclidean_norm v / norm))).
Proof.
  intros Lt Lr Hi Hn v norm R_cs_i R_hs_i.
  assert (Hpos : 0 < norm).
  { destruct (sqrt_pos (fst (nth i averages_reference (0, 0)) * fst (nth i averages_reference (0, 0)) +
                        snd (nth i averages_reference (0, 0)) * snd (nth i averages_reference (0, 0)))) as [Hp|Hz].
    - exact Hp.
    - exfalso. apply Hn. symmetry. exact Hz. }
  assert (Ecs : R_cs_i = 100 * radial v i / norm) by (apply R_cs_radial; assumption).
  assert (Ehs : R_hs_i = tangential v i / norm) by (apply R_hs_tangential; assumption).
  split.
  - intros Ht. rewrite Ecs, Ehs, Ht, (euclidean_norm_radial v i Ht).
    repeat split.
    + unfold Rdiv. ring.
    + unfold Rdiv. rewrite !Rabs_mult, (Rabs_pos_eq 100) by lra.
      rewrite (Rabs_pos_eq (/ norm)) by (left; apply Rinv_0_lt_compat; exact Hpos).
      reflexivity.
    + intros Hr. rewrite (Rabs_pos_eq _ Hr). reflexivity.
    + intros Hr. rewrite (Rabs_left1 _ Hr). unfold Rdiv. ring.
  - intros Hr. rewrite Ecs, Ehs, Hr, (euclidean_norm_tangential v i Hr).
    repeat split.
    + unfold Rdiv. ring.
    + unfold Rdiv. rewrite Rabs_mult.
      rewrite (Rabs_pos_eq (/ norm)) by (left; apply Rinv_0_lt_compat; exact Hpos).
      reflexivity.
    + intros Ht. rewrite (Rabs_pos_eq _ Ht). reflexivity.
    + intros Ht. rewrite (Rabs_left1 _ Ht). unfold Rdiv. ring.
Qed.

Lemma shift_of_radial_or_tangential_delta_witness :
  euclidean_norm (nth 0 cx_reference (0, 0)) <> 0 /\
  nth 0 (local_hue_shifts cx_test cx_reference) 0 = 0 /\
  Rabs (nth 0 (local_chromaticity_shifts cx_test cx_reference) 0) = 50 /\
  nth 0 (local_chromaticity_shifts cx_test cx_reference) 0 = -50.
Proof.
  assert (Hn : euclidean_norm (nth 0 cx_reference (0, 0)) <> 0)
    by (rewrite cx_norm; lra).
  destruct (shift_of_radial_or_tangential_delta cx_test cx_reference 0
              eq_refl eq_refl (Nat.lt_0_succ 15) Hn) as [Hrad _].
  destruct (Hrad cx_tangential) as (Hhs & Habs & _ & Hin).
  rewrite cx_delta_norm, cx_norm in Habs.
  rewrite cx_radial, cx_delta_norm, cx_norm in Hin.
  split; [exact Hn|]. split; [exact Hhs|]. split.
  - rewrite Habs. lra.
  - rewrite Hin by lra. lra.
Defined.
End Statements.

Section GenericStatements.
Variable SD : Type.
Context {F : Type} `{Float64 F}.
Local Open Scope f64_scope.

(** C5: for every valid input with [additional_data] set, each of [R_fs],
    [R_cs], [R_hs], [averages_test] and [averages_reference] of the
    returned specification has exactly 16 entries, and entry [i] is the
    one computed from hue bin [i].  Neither the range of the hue angles
    nor the bins being non-empty is needed. *)
Theorem per_bin_arrays_have_16_entries
  (colour_fidelity_index_CIE2017 : SD -> bool -> cfi2017.output SD F)
  (delta_E_to_R_f : F -> F) (sd_test : SD)
  (specification : ColourRendering_Specification_CIE2017 SD F) :
  colour_fidelity_index_CIE2017 sd_test true = Specification specification ->
  same_samples specification ->
  exists q,
    colour_fidelity_index_ANSIIESTM3018
      colour_fidelity_index_CIE2017 delta_E_to_R_f sd_test true
    = Ok (ANSIIESTM3018 q) /\
    length (bins q) = 16%nat /\
    length (R_fs q) = 16%nat /\ length (R_cs q) = 16%nat /\
    length (R_hs q) = 16%nat /\
    length (averages_test q) = 16%nat /\
    length (averages_reference q) = 16%nat /\
    forall i, (i < 16)%nat ->
      let data := cfi2017.colorimetry_data specification in
      let b := nth i (bins q) [] in
      let t := nth i (averages_test q) (of_Z 0, of_Z 0) in
      let r := nth i (averages_reference q) (of_Z 0, of_Z 0) in
      t = np_mean_axis0 (rows_at (map apbp (fst data)) b) /\
      r = np_mean_axis0 (rows_at (map apbp (snd data)) b) /\
      nth i (R_fs q) (of_Z 0) =
      delta_E_to_R_f
        (np_mean (entries_at (cfi2017.delta_E_s specification) b)) /\
      nth i (R_cs q) (of_Z 0) =
      of_Z 100
      * ((fst t - fst r) * np_cos (angle i)
         + (snd t - snd r) * np_sin (angle i))
      / np_sqrt (fst r * fst r + snd r * snd r) /\
      nth i (R_hs q) (of_Z 0) =
      (- (fst t - fst r) * np_sin (angle i)
       + (snd t - snd r) * np_cos (angle i))
      / np_sqrt (fst r * fst r + snd r * snd r).
Proof.
  intros Hup Hsame.
  pose proof (run_set SD colour_fidelity_index_CIE2017 delta_E_to_R_f
                sd_test specification Hup Hsame) as Hrun.
  cbv zeta in Hrun. eexists. split; [exact Hrun|].
  cbn [bins R_fs R_cs R_hs averages_test averages_reference].
  set (data := cfi2017.colorimetry_data specification).
  set (bs := hue_bins (snd data)).
  set (avt := bin_means (map apbp (fst data)) bs).
  set (avr := bin_means (map apbp (snd data)) bs).
  assert (Lbs : length bs = 16%nat) by apply hue_bins_length.
  assert (Lt : length avt = 16%nat)
    by (unfold avt; rewrite length_bin_means; exact Lbs).
  assert (Lr : length avr = 16%nat)
    by (unfold avr; rewrite length_bin_means; exact Lbs).
  split; [exact Lbs|]. split.
  { unfold bin_delta_E_s. rewrite !length_map. exact Lbs. }
  split; [exact (length_local_chromaticity_shifts avt avr Lt Lr)|].
  split; [exact (length_local_hue_shifts avt avr Lt Lr)|].
  split; [exact Lt|]. split; [exact Lr|].
  intros i Hi. cbv zeta.
  split; [unfold avt; apply nth_bin_means; lia|].
  split; [unfold avr; apply nth_bin_means; lia|].
  split.
  { rewrite (nth_map_in _ _ _ _ (of_Z 0))
      by (unfold bin_delta_E_s; rewrite length_map; lia).
    unfold bin_delta_E_s.
    rewrite (nth_map_in (fun b0 => np_mean (entries_at _ b0)) _ _ _ []) by lia.
    reflexivity. }
  split.
  - exact (nth_local_chromaticity_shifts avt avr Lt Lr i (of_Z 0) Hi).
  - exact (nth_local_hue_shifts avt avr Lt Lr i (of_Z 0) Hi).
Qed.

(** C6: with [additional_data] unset the call returns what the upstream
    computation returns with the flag unset, its scalar [R_f], and nothing
    else of the upstream computation or of [delta_E_to_R_f] has a say in
    it: no bin, no average and no index is computed.
    With [additional_data] set, and one entry per sample upstream, it
    returns the aggregate [ColourQuality_Specification_ANSIIESTM3018] in
    full: the eight upstream fields as they are, and the eight fields of
    this module, each with the value the pipeline computes: the 16 hue
    bins, the per-bin averages of the test and reference a'b' points, the
    gamut index from the areas of their polygons, the norms of the
    reference averages, the 16 local colour fidelities from the per-bin
    means of [delta_E_s], and the 16 chroma and hue shifts. *)
Theorem additional_data_selects_the_result
  (colour_fidelity_index_CIE2017 : SD -> bool -> cfi2017.output SD F)
  (delta_E_to_R_f : F -> F) (sd : SD) :
  colour_fidelity_index_ANSIIESTM3018
    colour_fidelity_index_CIE2017 delta_E_to_R_f sd false
  = Ok (CIE2017 (colour_fidelity_index_CIE2017 sd false)) /\
  (forall base_R_f,
      colour_fidelity_index_CIE2017 sd false = Float base_R_f ->
      colour_fidelity_index_ANSIIESTM3018
        colour_fidelity_index_CIE2017 delta_E_to_R_f sd false
      = Ok (CIE2017 (Float base_R_f))) /\
  (forall (upstream : SD -> bool -> cfi2017.output SD F) (transform : F -> F),
      upstream sd false = colour_fidelity_index_CIE2017 sd false ->
      colour_fidelity_index_ANSIIESTM3018 upstream transform sd false
      = colour_fidelity_index_ANSIIESTM3018
          colour_fidelity_index_CIE2017 delta_E_to_R_f sd false) /\
  (forall specification,
      colour_fidelity_index_CIE2017 sd true
      = Specification specification ->
      same_samples specification ->
      let data := cfi2017.colorimetry_data specification in
      exists q,
        colour_fidelity_index_ANSIIESTM3018
          colour_fidelity_index_CIE2017 delta_E_to_R_f sd true
        = Ok (ANSIIESTM3018 q) /\
        name q = cfi2017.name specification /\
        sd_test q = sd /\
        sd_reference q = cfi2017.sd_reference specification /\
        R_f q = cfi2017.R_f specification /\
        R_s q = cfi2017.R_s specification /\
        CCT q = cfi2017.CCT specification /\
        D_uv q = cfi2017.D_uv specification /\
        colorimetry_data q = data /\
        bins q = hue_bins (snd data) /\
        length (bins q) = 16%nat /\
        averages_test q = bin_means (map apbp (fst data)) (bins q) /\
        averages_reference q = bin_means (map apbp (snd data)) (bins q) /\
        R_g q =
        of_Z 100
        * (averages_area (averages_test q)
           / averages_area (averages_reference q)) /\
        average_norms q = np_linalg_norm_axis1 (averages_reference q) /\
        R_fs q =
        map delta_E_to_R_f
          (bin_delta_E_s (cfi2017.delta_E_s specification) (bins q)) /\
        R_cs q =
        local_chromaticity_shifts (averages_test q) (averages_reference q) /\
        R_hs q =
        local_hue_shifts (averages_test q) (averages_reference q) /\
        length (averages_test q) = 16%nat /\
        length (averages_reference q) = 16%nat /\
        length (average_norms q) = 16%nat /\
        length (R_fs q) = 16%nat /\
        length (R_cs q) = 16%nat /\
        length (R_hs q) = 16%nat).
Proof.
  split; [reflexivity|]. split.
  - intros base_R_f Hbase.
    rewrite (run_unset SD colour_fidelity_index_CIE2017 delta_E_to_R_f sd).
    rewrite Hbase. reflexivity.
  - split.
    { intros upstream transform Hsame.
      rewrite !run_unset, Hsame. reflexivity. }
    intros specification Hup Hsame data.
    pose proof (run_set SD colour_fidelity_index_CIE2017 delta_E_to_R_f
                  sd specification Hup Hsame) as Hrun.
    cbv zeta in Hrun. eexists. split; [exact Hrun|].
    cbn [name sd_test sd_reference R_f R_s CCT D_uv colorimetry_data R_g
           bins averages_test averages_reference average_norms
           R_fs R_cs R_hs].
    fold data.
    set (bs := hue_bins (snd data)).
    set (avt := bin_means (map apbp (fst data)) bs).
    set (avr := bin_means (map apbp (snd data)) bs).
    assert (Lbs : length bs = 16%nat) by apply hue_bins_length.
    assert (Lt : length avt = 16%nat)
      by (unfold avt; rewrite length_bin_means; exact Lbs).
    assert (Lr : length avr = 16%nat)
      by (unfold avr; rewrite length_bin_means; exact Lbs).
    do 9 (split; [reflexivity|]).
    split; [exact Lbs|].
    do 7 (split; [reflexivity|]).
    split; [exact Lt|]. split; [exact Lr|].
    split; [unfold np_linalg_norm_axis1; rewrite length_map; exact Lr|].
    split; [unfold bin_delta_E_s; rewrite !length_map; exact Lbs|].
    split; [exact (length_local_chromaticity_shifts avt avr Lt Lr)|].
    exact (length_local_hue_shifts avt avr Lt Lr).
Qed.
End GenericStatements.

Section GenericWitness.
Local Open Scope R_scope.

Lemma per_bin_arrays_have_16_entries_witness :
  exists q,
    colour_fidelity_index_ANSIIESTM3018 fixture_CIE2017 (fun x => x) tt true
    = Ok (ANSIIESTM3018 q) /\
    length (R_fs q) = 16%nat /\ length (R_cs q) = 16%nat /\
    length (R_hs q) = 16%nat /\
    length (averages_test q) = 16%nat /\
    length (averages_reference q) = 16%nat.
Proof.
  destruct (per_bin_arrays_have_16_entries unit fixture_CIE2017 (fun x => x)
              tt fixture_specification eq_refl (conj eq_refl eq_refl))
    as (q & Hrun & _ & Hfs & Hcs & Hhs & Ht & Hr & _).
  exists q. repeat split; assumption.
Defined.
End GenericWitness.

Section B64Statements.
Local Open Scope float_scope.

Lemma undefined_results_propagate_witness :
  (exists q,
      colour_fidelity_index_ANSIIESTM3018 (H := B64_Float64 poly_cos poly_sin)
        (b64_CIE2017 one_sample) (fun x => x) tt true
      = Ok (ANSIIESTM3018 q) /\
      nth 1 (bins q) [] = [] /\
      nth 1 (averages_reference q) (0, 0) = (nan, nan) /\
      nth 1 (R_cs q) 0 = nan /\ nth 1 (R_hs q) 0 = nan /\ R_g q = nan) /\
  (exists q,
      colour_fidelity_index_ANSIIESTM3018 (H := B64_Float64 poly_cos poly_sin)
        (b64_CIE2017 origin_samples) (fun x => x) tt true
      = Ok (ANSIIESTM3018 q) /\
      is_zero (nth 0 (average_norms q) 0) = true /\
      undefined (nth 0 (R_cs q) 0) = true /\
      is_zero (averages_area (H := B64_Float64 poly_cos poly_sin)
                 (averages_reference q)) = true /\
      undefined (R_g q) = true).
Proof.
  split.
  - destruct (undefined_results_propagate poly_cos poly_sin unit
                (b64_CIE2017 one_sample) (fun x => x) tt
                (b64_specification one_sample) eq_refl (conj eq_refl eq_refl))
      as (q & Hrun & Hempty & _ & _).
    exists q. split; [exact Hrun|].
    assert (Hb : nth 1 (bins q) [] = []).
    { vm_compute in Hrun. apply Ok_ANSIIESTM3018_inj in Hrun.
      rewrite <- Hrun. reflexivity. }
    destruct (Hempty 1%nat ltac:(lia) Hb)
      as (_ & Hr & _ & _ & Hcs & Hhs & Hg).
    repeat split; assumption.
  - destruct (undefined_results_propagate poly_cos poly_sin unit
                (b64_CIE2017 origin_samples) (fun x => x) tt
                (b64_specification origin_samples) eq_refl
                (conj eq_refl eq_refl))
      as (q & Hrun & _ & Hnorm & Harea).
    exists q. split; [exact Hrun|].
    assert (Hq : is_zero (nth 0 (average_norms q) 0) = true /\
                 is_zero (averages_area (H := B64_Float64 poly_cos poly_sin)
                            (averages_reference q)) = true).
    { vm_compute in Hrun. apply Ok_ANSIIESTM3018_inj in Hrun.
      rewrite <- Hrun. split; vm_compute; reflexivity. }
    destruct Hq as [Hz Ha].
    destruct (Hnorm 0%nat ltac:(lia) Hz) as [Hcs _].
    repeat split; try assumption. exact (Harea Ha).
Defined.

(** C7, as the specification words it, fails in binary64: the area of the
    16 points of [b64_polygon] is 1700.1750000000002, that of the reversed
    sequence is -1700.175, one unit in the last place away from the
    negation.  Reversing the points permutes the 16 terms [np.sum] adds,
    and the sums round apart. *)
Lemma reversed_area_rounds_apart :
  length b64_polygon = 16%nat /\
  averages_area (H := B64_Float64 poly_cos poly_sin) b64_polygon
  = 0x1.a90b333333334p+10 /\
  averages_area (H := B64_Float64 poly_cos poly_sin) (rev b64_polygon)
  = -0x1.a90b333333333p+10 /\
  averages_area (H := B64_Float64 poly_cos poly_sin) (rev b64_polygon)
  <> - averages_area (H := B64_Float64 poly_cos poly_sin) b64_polygon.
Proof.
  split; [reflexivity|].
  split; [vm_compute; reflexivity|].
  split; [vm_compute; reflexivity|].
  intros E.
  apply (f_equal (fun x => x =? -0x1.a90b333333333p+10)) in E.
  vm_compute in E. discriminate E.
Qed.

(** C9, as the specification words it, fails in binary64: the hue angles
    of samples 0 and 1 of [subnormal_hue_samples] are negative, yet their
    quotients by 22.5 underflow to [-0.0], which equals the label 0: both
    are members of bin 0, next to sample 3 of hue angle 14, and the
    average (4, 1.5) of bin 0 is that of the three points (4, 1), (6, 3)
    and (2, 0.5).  Sample 2, of hue angle [-12 * 2^-1074], is in no bin. *)
Lemma negative_subnormal_hue_is_binned :
  exists q,
    colour_fidelity_index_ANSIIESTM3018 (H := B64_Float64 poly_cos poly_sin)
      (b64_CIE2017 subnormal_hue_samples) (fun x => x) tt true
    = Ok (ANSIIESTM3018 q) /\
    (hue_angle (nth 0 subnormal_hue_samples (b64_sample 0 0 0)) <? 0) = true /\
    (hue_angle (nth 1 subnormal_hue_samples (b64_sample 0 0 0)) <? 0) = true /\
    bins q =
    [[0; 1; 3]; []; []; []; []; []; []; []; []; []; []; []; []; []; []; []]%nat /\
    In 0%nat (nth 0 (bins q) []) /\ In 1%nat (nth 0 (bins q) []) /\
    nth 0 (averages_reference q) (0, 0) = (4, 1.5) /\
    nth 0 (averages_test q) (0, 0) = (4, 1.5).
Proof.
  eexists. split; [vm_compute; reflexivity|].
  cbn [bins averages_reference averages_test nth In].
  repeat split; auto.
Qed.

(** Rounding at the edge of the hue range: in binary64 the quotient of the
    smallest negative hue angle by 22.5 underflows to [-0.0], which equals
    the label 0, and the sample is a member of bin 0. *)
Example b64_negative_subnormal_hue (libm_cos libm_sin : float -> float) :
  (-0x1p-1074 <? 0) = true /\
  hue_bins (H := B64_Float64 libm_cos libm_sin) [b64_sample (-0x1p-1074) 1 0]
  = [[0%nat]; []; []; []; []; []; []; []; []; []; []; []; []; []; []; []].
Proof. split; reflexivity. Qed.
End B64Statements.

(** * Further properties of the code *)

(** ** Order and size of the bins *)

Section BinFacts.
Context {F : Type} `{Float64 F}.

Lemma where_eq_from_sorted (xs : list F) (b : F) (i : nat) :
  StronglySorted lt (where_eq_from i xs b) /\
  Forall (fun j => i <= j < i + length xs)%nat (where_eq_from i xs b).
Proof.
  revert i; induction xs as [|x xs IH]; intros i; cbn [where_eq_from length].
  - split; constructor.
  - destruct (IH (S i)) as [Hs Hb].
    assert (Hb' : Forall (fun j => i <= j < i + S (length xs))%nat
                    (where_eq_from (S i) xs b)).
    { eapply Forall_impl; [|exact Hb]. cbn beta. intros j Hj. lia. }
    destruct (feqb x b).
    + split.
      * constructor; [exact Hs|].
        eapply Forall_impl; [|exact Hb]. cbn beta. intros j Hj. lia.
      * constructor; [lia|exact Hb'].
    + split; assumption.
Qed.
End BinFacts.

Section Extra1.
Context {F : Type} `{Float64 F}.

(** Every bin lists its members in strictly increasing order, and every
    member is an index of a reference sample. *)
Theorem hue_bins_ascending
  (reference : list (DataColorimetry_TCS_CIE2017 F)) (b : nat) :
  StronglySorted lt (nth b (hue_bins reference) []) /\
  Forall (fun i => i < length reference)%nat (nth b (hue_bins reference) []).
Proof.
  destruct (Nat.lt_ge_cases b 16) as [Hb | Hb].
  - unfold hue_bins.
    rewrite (nth_map_in _ _ _ _ 0%nat) by (rewrite length_seq; exact Hb).
    unfold np_where_eq.
    destruct (where_eq_from_sorted
                (map (fun sample => np_floor (fdiv (hue_angle sample) (lit 22.5)))
                   reference)
                (of_Z (Z.of_nat (nth b (seq 0 16) 0%nat))) 0) as [Hs Hr].
    split; [exact Hs|].
    eapply Forall_impl; [|exact Hr]. cbn beta. intros j Hj.
    rewrite length_map in Hj. lia.
  - rewrite nth_overflow by (rewrite hue_bins_length; exact Hb).
    split; constructor.
Qed.
End Extra1.

Section Extra2.
Local Open Scope R_scope.

(** Sample [i] is a member of bin [b] exactly when its reference hue angle
    lies in [[22.5 * b, 22.5 * (b + 1))]. *)
Theorem bin_members_by_hue_interval
  (reference : list (DataColorimetry_TCS_CIE2017 R)) (b i : nat) :
  (b < 16)%nat ->
  (in_bin reference b i <->
   (i < length reference)%nat /\
   22.5 * INR b <= hue_angle (nth i reference sample0) < 22.5 * (INR b + 1)).
Proof.
  intros Hb. rewrite (in_bin_iff reference b i Hb).
  rewrite INR_IZR_INZ.
  split; intros [Hi Hh]; (split; [exact Hi|]).
  - rewrite <- Hh. apply bin_index_bounds.
  - apply bin_index_eq. exact Hh.
Qed.

Lemma bin_members_by_hue_interval_witness :
  in_bin fixture_samples 0 0 <->
  (0 < length fixture_samples)%nat /\
  22.5 * INR 0 <= hue_angle (nth 0 fixture_samples sample0) < 22.5 * (INR 0 + 1).
Proof. apply bin_members_by_hue_interval. lia. Defined.

(** The bin sizes sum to at most the number of reference samples. *)
Theorem bin_sizes_sum_at_most_N
  (reference : list (DataColorimetry_TCS_CIE2017 R)) :
  (length (concat (hue_bins reference)) <= length reference)%nat.
Proof.
  rewrite <- (length_seq (length reference) 0).
  apply NoDup_incl_length; [apply hue_bins_NoDup|].
  intros i Hi. apply in_seq. apply hue_bins_incl in Hi. lia.
Qed.

(** The bisecting angle of bin [i], converted back to degrees, is
    [22.5 * i + 11.25], and a hue angle of that many degrees has the bin
    label [i]: each bisector lies inside its own bin. *)
Theorem bisector_lies_in_its_bin (i : nat) :
  angle (F := R) i * 180 / PI = 22.5 * INR i + 11.25 /\
  bin_index (angle (F := R) i * 180 / PI) = Z.of_nat i.
Proof.
  assert (Hdeg : angle (F := R) i * 180 / PI = 22.5 * INR i + 11.25).
  { unfold angle. cbn [fadd fmul fdiv of_Z lit np_pi R_Float64].
    rewrite INR_IZR_INZ.
    change (Q2R 22.5) with 22.5. change (Q2R 11.25) with 11.25.
    field. apply PI_neq0. }
  split; [exact Hdeg|].
  rewrite Hdeg. apply bin_index_eq. rewrite INR_IZR_INZ. lra.
Qed.
End Extra2.

(** ** Norms and shifts *)

Section NormsAndShifts.
Local Open Scope R_scope.

Lemma euclidean_norm_zero_iff (p : R * R) :
  euclidean_norm p = 0 <-> p = (0, 0).
Proof.
  unfold euclidean_norm. destruct p as [x y]. cbn [fst snd]. split.
  - intros Hz.
    assert (Hsum : x * x + y * y = 0).
    { apply sqrt_eq_0; [nra|exact Hz]. }
    assert (x = 0) by nra. assert (y = 0) by nra. subst. reflexivity.
  - intros E. injection E as -> ->.
    replace (0 * 0 + 0 * 0) with 0 by ring. apply sqrt_0.
Qed.

(** Each entry of [average_norms] is non-negative, and it is zero exactly
    when the reference average of the bin is the origin. *)
Theorem average_norm_zero_iff_origin
  (averages_reference : list (R * R)) (i : nat) :
  (i < length averages_reference)%nat ->
  0 <= nth i (np_linalg_norm_axis1 averages_reference) 0 /\
  (nth i (np_linalg_norm_axis1 averages_reference) 0 = 0 <->
   nth i averages_reference (0, 0) = (0, 0)).
Proof.
  intros Hi. unfold np_linalg_norm_axis1.
  rewrite (nth_map_in _ _ _ _ (0, 0)) by exact Hi.
  change (np_sqrt (fmul (fst (nth i averages_reference (0, 0)))
                        (fst (nth i averages_reference (0, 0)))
                   + fmul (snd (nth i averages_reference (0, 0)))
                          (snd (nth i averages_reference (0, 0))))%f64)
    with (euclidean_norm (nth i averages_reference (0, 0))).
  split; [apply sqrt_pos|apply euclidean_norm_zero_iff].
Qed.

Lemma average_norm_zero_iff_origin_witness :
  0 <= nth 0 (np_linalg_norm_axis1 cx_reference) 0 /\
  (nth 0 (np_linalg_norm_axis1 cx_reference) 0 = 0 <->
   nth 0 cx_reference (0, 0) = (0, 0)).
Proof. apply average_norm_zero_iff_origin. cbn. lia. Defined.

(** In a bin with non-zero reference norm, the chromaticity shift (as a
    fraction, not a percentage) and the hue shift are the two orthogonal
    components of the relative delta: their squares add up to
    [(|delta| / norm)^2]. *)
Theorem shifts_pythagoras
  (averages_test averages_reference : list (R * R)) (i : nat) :
  length averages_test = 16%nat -> length averages_reference = 16%nat ->
  (i < 16)%nat ->
  euclidean_norm (nth i averages_reference (0, 0)) <> 0 ->
  let R_cs_i :=
    nth i (local_chromaticity_shifts averages_test averages_reference) 0 in
  let R_hs_i := nth i (local_hue_shifts averages_test averages_reference) 0 in
  (R_cs_i / 100) ^ 2 + R_hs_i ^ 2 =
  (euclidean_norm (average_delta averages_test averages_reference i)
   / euclidean_norm (nth i averages_reference (0, 0))) ^ 2.
Proof.
  intros Lt Lr Hi Hn R_cs_i R_hs_i.
  set (v := average_delta averages_test averages_reference i).
  set (n := euclidean_norm (nth i averages_reference (0, 0))) in *.
  assert (Ecs : R_cs_i = 100 * radial v i / n)
    by (apply R_cs_radial; assumption).
  assert (Ehs : R_hs_i = tangential v i / n)
    by (apply R_hs_tangential; assumption).
  assert (Hv : euclidean_norm v ^ 2 = fst v * fst v + snd v * snd v).
  { unfold euclidean_norm. rewrite <- Rsqr_pow2, Rsqr_sqrt; [reflexivity|nra]. }
  rewrite Ecs, Ehs.
  replace ((euclidean_norm v / n) ^ 2) with (euclidean_norm v ^ 2 / n ^ 2)
    by (field; exact Hn).
  rewrite Hv, <- (projections_norm v i). field. exact Hn.
Qed.

Lemma shifts_pythagoras_witness :
  (nth 0 (local_chromaticity_shifts cx_test cx_reference) 0 / 100) ^ 2
  + nth 0 (local_hue_shifts cx_test cx_reference) 0 ^ 2 =
  (euclidean_norm (average_delta cx_test cx_reference 0)
   / euclidean_norm (nth 0 cx_reference (0, 0))) ^ 2.
Proof.
  apply shifts_pythagoras; try reflexivity; [lia|].
  rewrite cx_norm. lra.
Defined.

End NormsAndShifts.

(** ** The polygon area under moves of the plane *)

Section AreaMoves.
Local Open Scope R_scope.

Lemma Rsum_map_scal (A : Type) (k : R) (f : A -> R) (l : list A) :
  Rsum (map (fun x => k * f x) l) = k * Rsum (map f l).
Proof. induction l as [|x l IH]; cbn [map Rsum]; [|rewrite IH]; ring. Qed.

Lemma Rsum_map_plus (A : Type) (f g : A -> R) (l : list A) :
  Rsum (map (fun x => f x + g x) l) = Rsum (map f l) + Rsum (map g l).
Proof. induction l as [|x l IH]; cbn [map Rsum]; [|rewrite IH]; ring. Qed.

Lemma Rsum_seq_cyclic (f : nat -> R) (N : nat) :
  Rsum (map (fun i => f ((i + 1) mod N)%nat) (seq 0 N)) = Rsum (map f (seq 0 N)).
Proof.
  destruct N as [|n]; [reflexivity|].
  rewrite seq_S at 1. rewrite map_app, Rsum_app, Nat.add_0_l. cbn [map Rsum].
  replace ((n + 1) mod S n)%nat with 0%nat
    by (replace (n + 1)%nat with (S n) by lia;
        symmetry; apply Nat.Div0.mod_same).
  cbn [seq]. rewrite <- seq_shift. cbn [map Rsum]. rewrite map_map.
  rewrite (map_ext_in (fun i => f ((i + 1) mod S n)%nat) (fun i => f (S i))).
  - ring.
  - intros i Hi. apply in_seq in Hi.
    rewrite Nat.mod_small by lia. f_equal. lia.
Qed.

(** A polygon with fewer than three vertices has zero area. *)
Theorem averages_area_degenerate (averages : list (R * R)) :
  (length averages <= 2)%nat -> averages_area averages = 0.
Proof.
  intros Hlen. rewrite averages_area_Rsum.
  destruct averages as [|p [|q [|r l]]]; cbn [length] in Hlen; try lia.
  - reflexivity.
  - cbv [length seq map nth Nat.add Nat.modulo Nat.divmod Nat.sub fst snd
           Rsum cross]. destruct p as [x y]. cbn [fst snd]. field.
  - cbv [length seq map nth Nat.add Nat.modulo Nat.divmod Nat.sub fst snd
           Rsum cross]. destruct p as [x y], q as [x' y']. cbn [fst snd].
    field.
Qed.

Lemma averages_area_degenerate_witness :
  averages_area [(1, 2); (3, 4)] = 0.
Proof. apply averages_area_degenerate. cbn. lia. Defined.

(** Moving every point by the same vector leaves the area unchanged. *)
Theorem averages_area_translation (t : R * R) (averages : list (R * R)) :
  averages_area (map (translate t) averages) = averages_area averages.
Proof.
  rewrite !averages_area_Rsum, length_map.
  set (N := length averages).
  set (pt := fun i => nth i averages (0, 0)).
  rewrite (map_ext_in _
             (fun i => cross (pt i) (pt ((i + 1) mod N)%nat)
                       + (cross (pt i) t - cross (pt ((i + 1) mod N)%nat) t))).
  - rewrite Rsum_map_plus.
    rewrite (Rsum_map_plus nat (fun i => cross (pt i) t)
               (fun i => - cross (pt ((i + 1) mod N)%nat) t)).
    rewrite (Rsum_map_opp nat (fun i => cross (pt ((i + 1) mod N)%nat) t)).
    rewrite (Rsum_seq_cyclic (fun i => cross (pt i) t) N).
    subst pt. cbv beta. ring.
  - intros i Hi. apply in_seq in Hi.
    assert (Hm : ((i + 1) mod N < N)%nat) by (apply Nat.mod_upper_bound; lia).
    rewrite !(nth_map_in (translate t) averages _ (0, 0) (0, 0)) by (fold N; lia).
    fold (pt i). fold (pt ((i + 1) mod N)%nat).
    unfold cross, translate. cbn [fst snd]. field.
Qed.

(** Scaling every point by [k] scales the area by [k * k]. *)
Theorem averages_area_scaling (k : R) (averages : list (R * R)) :
  averages_area (map (scale k) averages) = k * k * averages_area averages.
Proof.
  rewrite !averages_area_Rsum, length_map.
  set (N := length averages).
  rewrite <- Rsum_map_scal. f_equal. apply map_ext_in.
  intros i Hi. apply in_seq in Hi.
  assert (Hm : ((i + 1) mod N < N)%nat) by (apply Nat.mod_upper_bound; lia).
  rewrite !(nth_map_in (scale k) averages _ (0, 0) (0, 0)) by (fold N; lia).
  unfold cross, scale. cbn [fst snd]. field.
Qed.

(** Moving the first vertex to the end, a cyclic renumbering of the
    vertices, leaves the area unchanged. *)
Theorem averages_area_rotation (p : R * R) (averages : list (R * R)) :
  averages_area (averages ++ [p]) = averages_area (p :: averages).
Proof.
  rewrite !averages_area_Rsum, length_app. cbn [length].
  replace (length averages + 1)%nat with (S (length averages)) by lia.
  set (N := S (length averages)).
  set (T := fun j => cross (nth j (p :: averages) (0, 0))
                       (nth ((j + 1) mod N) (p :: averages) (0, 0))).
  rewrite <- (Rsum_seq_cyclic T N).
  f_equal. apply map_ext_in. intros i Hi. apply in_seq in Hi.
  assert (Hrot : forall j, (j < N)%nat ->
            nth j (averages ++ [p]) (0, 0)
            = nth ((j + 1) mod N) (p :: averages) (0, 0)).
  { intros j Hj. destruct (Nat.eq_dec j (length averages)) as [-> | Hne].
    - rewrite app_nth2 by lia. rewrite Nat.sub_diag.
      replace (length averages + 1)%nat with N by (unfold N; lia).
      rewrite Nat.Div0.mod_same. reflexivity.
    - rewrite app_nth1 by (unfold N in Hj; lia).
      rewrite Nat.mod_small by (unfold N in *; lia).
      replace (j + 1)%nat with (S j) by lia. reflexivity. }
  unfold T. rewrite (Hrot i) by lia.
  rewrite (Hrot ((i + 1) mod N)%nat)
    by (apply Nat.mod_upper_bound; unfold N; lia).
  reflexivity.
Qed.
End AreaMoves.

(** ** Errors of the indexing *)

Section RaiseFacts.
Variable A : Type.

Lemma forallb_lt_Forall (n : nat) (idx : list nat) :
  forallb (fun i => i <? n)%nat idx = true <-> Forall (fun i => i < n)%nat idx.
Proof.
  rewrite forallb_forall, Forall_forall.
  split; intros Hall i Hi; specialize (Hall i Hi); apply Nat.ltb_lt; exact Hall.
Qed.

Lemma take_raise (xs : list A) (idx : list nat) :
  forallb (fun i => i <? length xs)%nat idx = false ->
  take xs idx = Raise IndexError.
Proof.
  induction idx as [|i idx IH]; cbn [forallb take]; [discriminate|].
  intros Hf. destruct (nth_error xs i) as [x|] eqn:E; [|reflexivity].
  assert (Hi : (i <? length xs)%nat = true).
  { apply Nat.ltb_lt. apply nth_error_Some. congruence. }
  rewrite Hi in Hf. cbn [andb] in Hf. rewrite (IH Hf). reflexivity.
Qed.

Lemma set_row_cases (xs : list A) (i : nat) (v : A) :
  (exists xs', set_row xs i v = Ok xs') \/ set_row xs i v = Raise IndexError.
Proof.
  destruct (Nat.lt_ge_cases i (length xs)) as [Hi | Hi].
  - left. destruct (set_row_ok A xs i v Hi) as (xs' & E & _). eauto.
  - right. revert i Hi; induction xs as [|x xs IH]; intros i Hi; [reflexivity|].
    destruct i as [|i]; cbn [length] in Hi; [lia|].
    cbn [set_row]. rewrite IH by lia. reflexivity.
Qed.

Lemma comprehension_raise (B : Type) (f : A -> result B) (xs : list A) :
  (forall x, In x xs -> (exists y, f x = Ok y) \/ f x = Raise IndexError) ->
  (exists x, In x xs /\ f x = Raise IndexError) ->
  comprehension f xs = Raise IndexError.
Proof.
  induction xs as [|x xs IH]; intros Hall (x0 & Hin & Hx0); [destruct Hin|].
  cbn [comprehension].
  destruct (Hall x (or_introl eq_refl)) as [[y Ey] | Er].
  - rewrite Ey. cbn [bind]. rewrite IH; [reflexivity| |].
    + intros z Hz. apply Hall. right. exact Hz.
    + destruct Hin as [-> | Hin]; [congruence|]. eauto.
  - rewrite Er. reflexivity.
Qed.
End RaiseFacts.

Section PipelineRaise.
Variable SD : Type.
Context {F : Type} `{Float64 F}.

Lemma rows_in_range_Forall (n : nat) (bs : list (list nat)) :
  rows_in_range n bs = true <-> Forall (Forall (fun i => i < n)%nat) bs.
Proof.
  unfold rows_in_range. rewrite forallb_forall, Forall_forall.
  split; intros Hall b Hb; apply forallb_lt_Forall, Hall, Hb.
Qed.

Lemma bin_averages_loop_raise (test_apbp ref_apbp : list (F * F)) :
  forall (bs : list (list nat)) (idx : nat)
         (averages_test averages_reference : list (F * F)),
    rows_in_range (length test_apbp) bs = false ->
    bin_averages_loop test_apbp ref_apbp idx bs averages_test averages_reference
    = Raise IndexError.
Proof.
  intros bs. induction bs as [|b bs IH]; intros idx avt avr Hbad;
    [discriminate|].
  cbn [rows_in_range forallb] in Hbad. cbn [bin_averages_loop].
  destruct (forallb (fun i => i <? length test_apbp)%nat b) eqn:Eb.
  - cbn [andb] in Hbad.
    apply forallb_lt_Forall in Eb.
    rewrite (take_ok _ test_apbp (of_Z 0, of_Z 0) b Eb). cbn [bind].
    destruct (set_row_cases _ avt idx
                (np_mean_axis0 (map (fun i => nth i test_apbp (of_Z 0, of_Z 0)) b)))
      as [[avt' Et] | Et]; rewrite Et; cbn [bind]; [|reflexivity].
    destruct (take ref_apbp b) as [ref_b|e] eqn:Er.
    + cbn [bind].
      destruct (set_row_cases _ avr idx (np_mean_axis0 ref_b))
        as [[avr' Ea] | Ea]; rewrite Ea; cbn [bind]; [|reflexivity].
      apply IH. exact Hbad.
    + cbn [bind].
      destruct (forallb (fun i => i <? length ref_apbp)%nat b) eqn:Erb.
      * apply forallb_lt_Forall in Erb.
        rewrite (take_ok _ ref_apbp (of_Z 0, of_Z 0) b Erb) in Er. discriminate.
      * rewrite (take_raise _ ref_apbp b Erb) in Er. congruence.
  - rewrite (take_raise _ test_apbp b Eb). reflexivity.
Qed.

Lemma local_colour_fidelities_raise (delta_E_to_R_f : F -> F)
  (delta_E_s : list F) (bs : list (list nat)) :
  length bs = 16%nat ->
  rows_in_range (length delta_E_s) bs = false ->
  local_colour_fidelities delta_E_to_R_f delta_E_s bs = Raise IndexError.
Proof.
  intros Hlen Hbad. unfold local_colour_fidelities.
  rewrite comprehension_raise; [reflexivity| |].
  - intros i Hi. apply in_seq in Hi.
    rewrite (list_get_ok _ bs [] i) by lia. cbn [bind].
    destruct (forallb (fun j => j <? length delta_E_s)%nat (nth i bs [])) eqn:E.
    + left. apply forallb_lt_Forall in E.
      rewrite (take_ok _ delta_E_s (of_Z 0) _ E). cbn [bind]. eauto.
    + right. rewrite (take_raise _ delta_E_s _ E). reflexivity.
  - unfold rows_in_range in Hbad.
    assert (Hex : exists b, In b bs /\
                    forallb (fun j => j <? length delta_E_s)%nat b = false).
    { clear Hlen. induction bs as [|b bs' IH]; [discriminate|].
      cbn [forallb] in Hbad. apply andb_false_iff in Hbad.
      destruct Hbad as [Hb | Hb].
      - exists b. split; [left; reflexivity|exact Hb].
      - destruct (IH Hb) as (b' & Hin & Hb'). exists b'. split; [right|]; assumption. }
    destruct Hex as (b & Hin & Hb).
    apply (In_nth _ _ []) in Hin. destruct Hin as (i & Hi & <-).
    exists i. split; [apply in_seq; lia|].
    rewrite (list_get_ok _ bs [] i) by lia. cbn [bind].
    rewrite (take_raise _ delta_E_s _ Hb). reflexivity.
Qed.

Variable colour_fidelity_index_CIE2017 : SD -> bool -> cfi2017.output SD F.
Variable delta_E_to_R_f : F -> F.

(** With [additional_data] set and an upstream specification, the call
    returns a specification exactly when every binned index is an index
    of the test data and of [delta_E_s]; otherwise it raises
    [IndexError]. *)
Theorem index_error_iff_binned_index_missing
  (sd : SD) (specification : ColourRendering_Specification_CIE2017 SD F) :
  colour_fidelity_index_CIE2017 sd true = Specification specification ->
  let data := cfi2017.colorimetry_data specification in
  let bs := hue_bins (snd data) in
  let in_range :=
    (rows_in_range (length (fst data)) bs
     && rows_in_range (length (cfi2017.delta_E_s specification)) bs)%bool in
  (in_range = true ->
   exists q,
     colour_fidelity_index_ANSIIESTM3018
       colour_fidelity_index_CIE2017 delta_E_to_R_f sd true
     = Ok (ANSIIESTM3018 q)) /\
  (in_range = false ->
   colour_fidelity_index_ANSIIESTM3018
     colour_fidelity_index_CIE2017 delta_E_to_R_f sd true
   = Raise IndexError).
Proof.
  intros Hup data bs in_range.
  unfold colour_fidelity_index_ANSIIESTM3018. cbn [negb]. rewrite Hup.
  fold data. fold bs.
  assert (Lbs : length bs = 16%nat) by apply hue_bins_length.
  assert (Href : Forall (Forall (fun i => i < length (snd data))%nat) bs)
    by apply hue_bins_bound.
  subst in_range.
  destruct (rows_in_range (length (fst data)) bs) eqn:Et.
  - apply rows_in_range_Forall in Et.
    rewrite (bin_averages_ok data bs Lbs Et Href). cbn [bind fst snd andb].
    destruct (rows_in_range (length (cfi2017.delta_E_s specification)) bs) eqn:Ed.
    + split; [|discriminate]. intros _.
      apply rows_in_range_Forall in Ed.
      rewrite (local_colour_fidelities_ok delta_E_to_R_f _ bs Lbs Ed).
      cbn [bind]. eexists. reflexivity.
    + split; [discriminate|]. intros _.
      rewrite (local_colour_fidelities_raise delta_E_to_R_f _ bs Lbs Ed).
      reflexivity.
  - cbn [andb]. split; [discriminate|]. intros _.
    unfold bin_averages. rewrite bin_averages_loop_raise; [reflexivity|].
    rewrite length_map. exact Et.
Qed.
End PipelineRaise.

Lemma index_error_iff_binned_index_missing_witness :
  colour_fidelity_index_ANSIIESTM3018 (H := B64_Float64 poly_cos poly_sin)
    short_test_CIE2017 (fun x => x) tt true
  = Raise IndexError.
Proof.
  apply (index_error_iff_binned_index_missing unit
           (H := B64_Float64 poly_cos poly_sin) short_test_CIE2017
           (fun x => x) tt _ eq_refl).
  vm_compute. reflexivity.
Defined.

(** ** Scaling, bounds and self-comparison over the reals *)

Section RealPipeline.
Local Open Scope R_scope.

Lemma np_mean_R (xs : list R) : np_mean xs = Rsum xs / INR (length xs).
Proof.
  unfold np_mean. rewrite np_sum_Rsum, INR_IZR_INZ. reflexivity.
Qed.

(** Over the reals the mean of each column along axis 0 is the mean of
    the column as a one-dimensional array. *)
Lemma np_mean_axis0_R (rows : list (R * R)) :
  np_mean_axis0 rows = (np_mean (map fst rows), np_mean (map snd rows)).
Proof.
  unfold np_mean_axis0, np_mean.
  rewrite !np_sum_axis0_Rsum, !np_sum_Rsum, !length_map. reflexivity.
Qed.

Lemma np_mean_scal (k : R) (xs : list R) :
  np_mean (map (fun x => k * x) xs) = k * np_mean xs.
Proof.
  rewrite !np_mean_R, length_map.
  rewrite <- (map_id xs) at 1. rewrite map_map, Rsum_map_scal, map_id.
  unfold Rdiv. ring.
Qed.

Lemma nth_map_scale (k : R) (xs : list (R * R)) (i : nat) :
  nth i (map (scale k) xs) (0, 0) = scale k (nth i xs (0, 0)).
Proof.
  destruct (Nat.lt_ge_cases i (length xs)) as [Hi | Hi].
  - apply nth_map_in. exact Hi.
  - rewrite !nth_overflow by (rewrite ?length_map; exact Hi).
    unfold scale. cbn [fst snd]. f_equal; ring.
Qed.

Lemma np_mean_axis0_scale (k : R) (rows : list (R * R)) :
  np_mean_axis0 (map (scale k) rows) = scale k (np_mean_axis0 rows).
Proof.
  rewrite !np_mean_axis0_R.
  replace (map fst (map (scale k) rows))
    with (map (fun x => k * x) (map fst rows))
    by (rewrite !map_map; reflexivity).
  replace (map snd (map (scale k) rows))
    with (map (fun x => k * x) (map snd rows))
    by (rewrite !map_map; reflexivity).
  rewrite !np_mean_scal. reflexivity.
Qed.

Lemma bin_means_scale (k : R) (xs : list (R * R)) (bs : list (list nat)) :
  bin_means (map (scale k) xs) bs = map (scale k) (bin_means xs bs).
Proof.
  unfold bin_means. rewrite map_map. apply map_ext. intros b.
  rewrite <- np_mean_axis0_scale. f_equal.
  unfold rows_at. rewrite map_map. apply map_ext. intros i.
  apply nth_map_scale.
Qed.

Lemma apbp_scale_sample (k : R) (l : list (DataColorimetry_TCS_CIE2017 R)) :
  map apbp (map (scale_sample k) l) = map (scale k) (map apbp l).
Proof. rewrite !map_map. reflexivity. Qed.

Lemma hue_bins_scale_sample (k : R) (l : list (DataColorimetry_TCS_CIE2017 R)) :
  hue_bins (map (scale_sample k) l) = hue_bins l.
Proof. unfold hue_bins. rewrite map_map. reflexivity. Qed.

Lemma euclidean_norm_scale (k : R) (p : R * R) :
  0 <= k -> euclidean_norm (scale k p) = k * euclidean_norm p.
Proof.
  intros Hk. unfold euclidean_norm, scale. cbn [fst snd].
  replace (k * fst p * (k * fst p) + k * snd p * (k * snd p))
    with (k * k * (fst p * fst p + snd p * snd p)) by ring.
  rewrite sqrt_mult by nra. rewrite sqrt_square by exact Hk. reflexivity.
Qed.

Lemma average_delta_scale (k : R) (avt avr : list (R * R)) (i : nat) :
  average_delta (map (scale k) avt) (map (scale k) avr) i
  = scale k (average_delta avt avr i).
Proof.
  unfold average_delta. rewrite !nth_map_scale.
  unfold scale. cbn [fst snd]. f_equal; ring.
Qed.

Lemma radial_scale (k : R) (v : R * R) (i : nat) :
  radial (scale k v) i = k * radial v i.
Proof. unfold radial, scale. cbn [fst snd]. ring. Qed.

Lemma tangential_scale (k : R) (v : R * R) (i : nat) :
  tangential (scale k v) i = k * tangential v i.
Proof. unfold tangential, scale. cbn [fst snd]. ring. Qed.

Section Scaling.
Variable SD : Type.
Variable colour_fidelity_index_CIE2017 : SD -> bool -> cfi2017.output SD R.
Variable delta_E_to_R_f : R -> R.

(** Scaling every a'b' point of the test and the reference data by the
    same [k > 0] changes neither the bins nor [R_fs], scales the bin
    averages by [k], and leaves [R_g] (non-zero reference area) and, in
    every bin with non-zero reference norm, [R_cs] and [R_hs] as they
    were. *)
Theorem indices_invariant_under_scaling (sd sd' : SD) (k : R)
  (specification : ColourRendering_Specification_CIE2017 SD R) :
  0 < k ->
  colour_fidelity_index_CIE2017 sd true = Specification specification ->
  colour_fidelity_index_CIE2017 sd' true
  = Specification (scale_specification k specification) ->
  same_samples specification ->
  exists q q',
    colour_fidelity_index_ANSIIESTM3018
      colour_fidelity_index_CIE2017 delta_E_to_R_f sd true
    = Ok (ANSIIESTM3018 q) /\
    colour_fidelity_index_ANSIIESTM3018
      colour_fidelity_index_CIE2017 delta_E_to_R_f sd' true
    = Ok (ANSIIESTM3018 q') /\
    bins q' = bins q /\ R_fs q' = R_fs q /\
    averages_test q' = map (scale k) (averages_test q) /\
    averages_reference q' = map (scale k) (averages_reference q) /\
    (averages_area (averages_reference q) <> 0 -> R_g q' = R_g q) /\
    forall i, (i < 16)%nat ->
      nth i (average_norms q) 0 <> 0 ->
      nth i (R_cs q') 0 = nth i (R_cs q) 0 /\
      nth i (R_hs q') 0 = nth i (R_hs q) 0.
Proof.
  intros Hk Hup Hup' Hsame.
  assert (Hsame' : same_samples (scale_specification k specification)).
  { destruct Hsame as [H1 H2]. split; cbn; rewrite !length_map; assumption. }
  pose proof (run_set SD colour_fidelity_index_CIE2017 delta_E_to_R_f
                sd specification Hup Hsame) as Hrun.
  pose proof (run_set SD colour_fidelity_index_CIE2017 delta_E_to_R_f
                sd' (scale_specification k specification) Hup' Hsame') as Hrun'.
  cbv zeta in Hrun, Hrun'.
  cbn [scale_specification cfi2017.colorimetry_data cfi2017.delta_E_s
         fst snd] in Hrun'.
  rewrite hue_bins_scale_sample, !apbp_scale_sample, !bin_means_scale in Hrun'.
  set (data := cfi2017.colorimetry_data specification) in *.
  set (bs := hue_bins (snd data)) in *.
  set (avt := bin_means (map apbp (fst data)) bs) in *.
  set (avr := bin_means (map apbp (snd data)) bs) in *.
  assert (Lbs : length bs = 16%nat) by apply hue_bins_length.
  assert (Lt : length avt = 16%nat)
    by (unfold avt; rewrite length_bin_means; exact Lbs).
  assert (Lr : length avr = 16%nat)
    by (unfold avr; rewrite length_bin_means; exact Lbs).
  eexists. eexists. split; [exact Hrun|]. split; [exact Hrun'|].
  cbn [bins R_fs averages_test averages_reference R_g average_norms R_cs R_hs].
  repeat (split; [reflexivity|]). split.
  - intros Harea. unfold gamut_index. rewrite !averages_area_scaling.
    cbn [fmul fdiv of_Z R_Float64]. field. split; [exact Harea|lra].
  - intros i Hi Hnorm.
    rewrite (nth_average_norms avt avr Lt Lr i 0 Hi) in Hnorm. cbv zeta in Hnorm.
    change (np_sqrt (fst (nth i avr (of_Z 0, of_Z 0)) * fst (nth i avr (of_Z 0, of_Z 0))
                     + snd (nth i avr (of_Z 0, of_Z 0)) * snd (nth i avr (of_Z 0, of_Z 0)))%f64)
      with (euclidean_norm (nth i avr (0, 0))) in Hnorm.
    rewrite !R_cs_radial, !R_hs_tangential
      by (rewrite ?length_map; assumption).
    rewrite average_delta_scale, radial_scale, tangential_scale, nth_map_scale.
    rewrite euclidean_norm_scale by lra.
    split; field; split; (exact Hnorm || lra).
Qed.
End Scaling.

Lemma indices_invariant_under_scaling_witness :
  exists q q',
    colour_fidelity_index_ANSIIESTM3018 doubled_CIE2017 (fun x => x) false true
    = Ok (ANSIIESTM3018 q) /\
    colour_fidelity_index_ANSIIESTM3018 doubled_CIE2017 (fun x => x) true true
    = Ok (ANSIIESTM3018 q') /\
    bins q' = bins q /\
    averages_reference q' = map (scale 2) (averages_reference q) /\
    R_g q' = R_g q.
Proof.
  destruct (indices_invariant_under_scaling bool doubled_CIE2017 (fun x => x)
              false true 2 _ ltac:(lra) eq_refl eq_refl
              (conj eq_refl eq_refl))
    as (q & q' & Hrun & Hrun' & Hbins & _ & _ & Hr & Hg & _).
  exists q, q'. repeat (split; [assumption|]).
  apply Hg.
  rewrite (run_set bool doubled_CIE2017 (fun x => x) false _ eq_refl
             (conj eq_refl eq_refl)) in Hrun.
  cbv zeta in Hrun. apply Ok_ANSIIESTM3018_inj in Hrun. subst q.
  cbn [averages_reference cfi2017.colorimetry_data fst snd].
  rewrite fixture_bin_means, fixture_area. lra.
Defined.

Lemma Rsum_bounds (lo hi : R) (xs : list R) :
  (forall x, In x xs -> lo <= x <= hi) ->
  INR (length xs) * lo <= Rsum xs <= INR (length xs) * hi.
Proof.
  induction xs as [|x xs IH]; intros Hall.
  - cbn. lra.
  - cbn [length Rsum]. rewrite S_INR.
    pose proof (Hall x (or_introl eq_refl)).
    pose proof (IH (fun y Hy => Hall y (or_intror Hy))). lra.
Qed.

Lemma np_mean_bounds (lo hi : R) (xs : list R) :
  xs <> [] -> (forall x, In x xs -> lo <= x <= hi) -> lo <= np_mean xs <= hi.
Proof.
  intros Hne Hall. rewrite np_mean_R.
  assert (Hn : 0 < INR (length xs)).
  { apply lt_0_INR. destruct xs; [congruence|cbn; lia]. }
  pose proof (Rsum_bounds lo hi xs Hall) as [Hlo Hhi].
  split.
  - apply (Rmult_le_reg_r (INR (length xs))); [exact Hn|].
    unfold Rdiv. rewrite Rmult_assoc, Rinv_l by lra. lra.
  - apply (Rmult_le_reg_r (INR (length xs))); [exact Hn|].
    unfold Rdiv. rewrite Rmult_assoc, Rinv_l by lra. lra.
Qed.

Lemma np_mean_axis0_in_box (lo hi : R * R) (rows : list (R * R)) :
  rows <> [] -> (forall p, In p rows -> in_box lo hi p) ->
  in_box lo hi (np_mean_axis0 rows).
Proof.
  intros Hne Hall. rewrite np_mean_axis0_R. unfold in_box.
  cbn [fst snd]. split.
  - apply np_mean_bounds.
    + destruct rows; [congruence|discriminate].
    + intros x Hx. apply in_map_iff in Hx. destruct Hx as (p & <- & Hp).
      exact (proj1 (Hall p Hp)).
  - apply np_mean_bounds.
    + destruct rows; [congruence|discriminate].
    + intros x Hx. apply in_map_iff in Hx. destruct Hx as (p & <- & Hp).
      exact (proj2 (Hall p Hp)).
Qed.

Section Averages.
Variable SD : Type.
Variable colour_fidelity_index_CIE2017 : SD -> bool -> cfi2017.output SD R.
Variable delta_E_to_R_f : R -> R.

(** The average of a non-empty bin lies in every axis-aligned box that
    holds the a'b' points of the bin's members, for the test and for the
    reference data alike. *)
Theorem bin_average_within_members_box (sd : SD)
  (specification : ColourRendering_Specification_CIE2017 SD R) :
  colour_fidelity_index_CIE2017 sd true = Specification specification ->
  same_samples specification ->
  exists q,
    colour_fidelity_index_ANSIIESTM3018
      colour_fidelity_index_CIE2017 delta_E_to_R_f sd true
    = Ok (ANSIIESTM3018 q) /\
    forall b lo hi, (b < 16)%nat -> nth b (bins q) [] <> [] ->
      let data := cfi2017.colorimetry_data specification in
      ((forall i, In i (nth b (bins q) []) ->
          in_box lo hi (apbp (nth i (fst data) sample0))) ->
       in_box lo hi (nth b (averages_test q) (0, 0))) /\
      ((forall i, In i (nth b (bins q) []) ->
          in_box lo hi (apbp (nth i (snd data) sample0))) ->
       in_box lo hi (nth b (averages_reference q) (0, 0))).
Proof.
  intros Hup Hsame.
  pose proof (run_set SD colour_fidelity_index_CIE2017 delta_E_to_R_f
                sd specification Hup Hsame) as Hrun.
  cbv zeta in Hrun. eexists. split; [exact Hrun|].
  cbn [bins averages_test averages_reference].
  destruct Hsame as [Hlt Hld].
  set (data := cfi2017.colorimetry_data specification) in *.
  set (bs := hue_bins (snd data)) in *.
  assert (Lbs : length bs = 16%nat) by apply hue_bins_length.
  assert (Hbound : forall b i, In i (nth b bs []) ->
                     (i < length (snd data))%nat).
  { intros b i Hi. apply hue_bins_incl. apply in_concat.
    destruct (Nat.lt_ge_cases b (length bs)) as [Hb | Hb].
    - exists (nth b bs []). split; [apply nth_In; exact Hb|exact Hi].
    - rewrite nth_overflow in Hi by exact Hb. destruct Hi. }
  intros b lo hi Hb Hne. cbv zeta.
  assert (Hrows : forall l : list (DataColorimetry_TCS_CIE2017 R),
             length l = length (snd data) ->
             (forall i, In i (nth b bs []) -> in_box lo hi (apbp (nth i l sample0))) ->
             in_box lo hi (nth b (bin_means (map apbp l) bs) (0, 0))).
  { intros l Hl Hall. rewrite nth_bin_means by lia.
    apply np_mean_axis0_in_box.
    - unfold rows_at. destruct (nth b bs []); [congruence|discriminate].
    - intros p Hp. unfold rows_at in Hp. apply in_map_iff in Hp.
      destruct Hp as (i & <- & Hi).
      rewrite (nth_map_in apbp l i _ sample0)
        by (rewrite Hl; exact (Hbound b i Hi)).
      exact (Hall i Hi). }
  split; intros Hall; apply Hrows; trivial.
Qed.

(** When the test data are the reference data, the two arrays of bin
    averages agree and, in every bin with non-zero reference norm, the
    chromaticity shift and the hue shift are zero. *)
Theorem no_shift_against_itself (sd : SD)
  (specification : ColourRendering_Specification_CIE2017 SD R) :
  colour_fidelity_index_CIE2017 sd true = Specification specification ->
  fst (cfi2017.colorimetry_data specification)
  = snd (cfi2017.colorimetry_data specification) ->
  length (cfi2017.delta_E_s specification)
  = length (snd (cfi2017.colorimetry_data specification)) ->
  exists q,
    colour_fidelity_index_ANSIIESTM3018
      colour_fidelity_index_CIE2017 delta_E_to_R_f sd true
    = Ok (ANSIIESTM3018 q) /\
    averages_test q = averages_reference q /\
    forall i, (i < 16)%nat -> nth i (average_norms q) 0 <> 0 ->
      nth i (R_cs q) 0 = 0 /\ nth i (R_hs q) 0 = 0.
Proof.
  intros Hup Heq Hld.
  assert (Hsame : same_samples specification)
    by (split; [rewrite Heq; reflexivity|exact Hld]).
  pose proof (run_set SD colour_fidelity_index_CIE2017 delta_E_to_R_f
                sd specification Hup Hsame) as Hrun.
  cbv zeta in Hrun. rewrite Heq in Hrun.
  eexists. split; [exact Hrun|].
  cbn [averages_test averages_reference average_norms R_cs R_hs].
  split; [reflexivity|].
  set (avr := bin_means _ _).
  assert (Lr : length avr = 16%nat)
    by (unfold avr; rewrite length_bin_means; apply hue_bins_length).
  intros i Hi Hnorm.
  rewrite (nth_average_norms avr avr Lr Lr i 0 Hi) in Hnorm. cbv zeta in Hnorm.
  change (np_sqrt (fst (nth i avr (of_Z 0, of_Z 0)) * fst (nth i avr (of_Z 0, of_Z 0))
                   + snd (nth i avr (of_Z 0, of_Z 0)) * snd (nth i avr (of_Z 0, of_Z 0)))%f64)
    with (euclidean_norm (nth i avr (0, 0))) in Hnorm.
  rewrite R_cs_radial, R_hs_tangential by assumption.
  unfold radial, tangential, average_delta. cbn [fst snd].
  split; field; exact Hnorm.
Qed.
End Averages.

Lemma bin_average_within_members_box_witness :
  exists q,
    colour_fidelity_index_ANSIIESTM3018 fixture_CIE2017 (fun x => x) tt true
    = Ok (ANSIIESTM3018 q) /\
    in_box (2, 0) (2, 1) (nth 0 (averages_test q) (0, 0)).
Proof.
  destruct (bin_average_within_members_box unit fixture_CIE2017 (fun x => x)
              tt fixture_specification eq_refl (conj eq_refl eq_refl))
    as (q & Hrun & Hbox).
  exists q. split; [exact Hrun|].
  assert (Hbins : bins q = hue_bins fixture_samples).
  { rewrite (run_set unit fixture_CIE2017 (fun x => x) tt
               fixture_specification eq_refl (conj eq_refl eq_refl)) in Hrun.
    cbv zeta in Hrun. apply Ok_ANSIIESTM3018_inj in Hrun. subst q.
    reflexivity. }
  assert (Hb0 : nth 0 (bins q) [] = [0%nat])
    by (rewrite Hbins, fixture_hue_bins; reflexivity).
  apply (Hbox 0%nat (2, 0) (2, 1)); [lia|rewrite Hb0; discriminate|].
  intros i Hi. rewrite Hb0 in Hi. destruct Hi as [<- | []].
  cbv [fixture_specification specification_of cfi2017.colorimetry_data fst snd
         fixture_samples nth apbp fixture_sample Jpapbp in_box]. lra.
Defined.

Lemma no_shift_against_itself_witness :
  exists q,
    colour_fidelity_index_ANSIIESTM3018 fixture_CIE2017 (fun x => x) tt true
    = Ok (ANSIIESTM3018 q) /\
    averages_test q = averages_reference q.
Proof.
  destruct (no_shift_against_itself unit fixture_CIE2017 (fun x => x) tt
              fixture_specification eq_refl eq_refl eq_refl)
    as (q & Hrun & Heq & _).
  exists q. split; assumption.
Defined.

Section Fidelity.
Local Open Scope R_scope.
Variable SD : Type.
Variable colour_fidelity_index_CIE2017 : SD -> bool -> cfi2017.output SD R.
Variable delta_E_to_R_f : R -> R.

(** The local fidelity of a non-empty bin is [delta_E_to_R_f] of a mean
    colour difference that lies between any bounds of the colour
    differences of the bin's members. *)
Theorem local_fidelity_of_mean_within_bounds (sd : SD)
  (specification : ColourRendering_Specification_CIE2017 SD R) :
  colour_fidelity_index_CIE2017 sd true = Specification specification ->
  same_samples specification ->
  exists q,
    colour_fidelity_index_ANSIIESTM3018
      colour_fidelity_index_CIE2017 delta_E_to_R_f sd true
    = Ok (ANSIIESTM3018 q) /\
    forall b lo hi, (b < 16)%nat -> nth b (bins q) [] <> [] ->
      (forall i, In i (nth b (bins q) []) ->
         lo <= nth i (cfi2017.delta_E_s specification) 0 <= hi) ->
      exists m, lo <= m <= hi /\ nth b (R_fs q) 0 = delta_E_to_R_f m.
Proof.
  intros Hup Hsame.
  pose proof (run_set SD colour_fidelity_index_CIE2017 delta_E_to_R_f
                sd specification Hup Hsame) as Hrun.
  cbv zeta in Hrun. eexists. split; [exact Hrun|]. cbn [bins R_fs].
  set (bs := hue_bins _).
  assert (Lbs : length bs = 16%nat) by apply hue_bins_length.
  intros b lo hi Hb Hne Hall.
  exists (np_mean (entries_at (cfi2017.delta_E_s specification) (nth b bs []))).
  split.
  - apply np_mean_bounds.
    + unfold entries_at. destruct (nth b bs []); [congruence|discriminate].
    + intros x Hx. unfold entries_at in Hx. apply in_map_iff in Hx.
      destruct Hx as (i & <- & Hi). exact (Hall i Hi).
  - unfold bin_delta_E_s. rewrite map_map.
    rewrite (nth_map_in _ bs b 0 []) by lia. reflexivity.
Qed.
End Fidelity.


Lemma local_fidelity_of_mean_within_bounds_witness :
  exists q,
    colour_fidelity_index_ANSIIESTM3018 fixture_CIE2017 (fun x => x) tt true
    = Ok (ANSIIESTM3018 q) /\
    exists m, 0 <= m <= 0 /\ nth 0 (R_fs q) 0 = m.
Proof.
  destruct (local_fidelity_of_mean_within_bounds unit fixture_CIE2017
              (fun x => x) tt fixture_specification eq_refl
              (conj eq_refl eq_refl))
    as (q & Hrun & Hfs).
  exists q. split; [exact Hrun|].
  assert (Hbins : bins q = hue_bins fixture_samples).
  { rewrite (run_set unit fixture_CIE2017 (fun x => x) tt
               fixture_specification eq_refl (conj eq_refl eq_refl)) in Hrun.
    cbv zeta in Hrun. apply Ok_ANSIIESTM3018_inj in Hrun. subst q.
    reflexivity. }
  assert (Hb0 : nth 0 (bins q) [] = [0%nat])
    by (rewrite Hbins, fixture_hue_bins; reflexivity).
  apply (Hfs 0%nat 0 0); [lia|rewrite Hb0; discriminate|].
  intros i Hi. rewrite Hb0 in Hi. destruct Hi as [<- | []].
  cbn. lra.
Defined.
End RealPipeline.

(** ** Undefined hue angles in binary64 *)

Section B64Hue.
Local Open Scope float_scope.
Variables libm_cos libm_sin : float -> float.

Lemma eqb_nan_l (y : float) : (nan =? y) = false.
Proof. rewrite FloatAxioms.eqb_spec. reflexivity. Qed.

Lemma undefined_cases (x : float) :
  undefined x = true -> x = nan \/ x = infinity \/ x = neg_infinity.
Proof.
  intros Hu. apply undefined_Prim2SF in Hu. destruct Hu as [Hn | [s Hs]].
  - left. apply Prim2SF_inj. rewrite Hn. reflexivity.
  - right. destruct s; [right|left]; apply Prim2SF_inj; rewrite Hs; reflexivity.
Qed.

Lemma label_of_undefined_hue (hue : float) (b : nat) :
  undefined hue = true -> (b < 16)%nat ->
  (b64_floor (hue / b64_lit 22.5) =? b64_of_Z (Z.of_nat b)) = false.
Proof.
  intros Hu Hb. destruct (undefined_cases hue Hu) as [-> | [-> | ->]].
  - rewrite div_nan_l. change (b64_floor nan) with nan. apply eqb_nan_l.
  - do 16 (destruct b as [|b]; [reflexivity|]). lia.
  - do 16 (destruct b as [|b]; [reflexivity|]). lia.
Qed.

(** In binary64 a reference sample whose hue angle is NaN or infinite is
    a member of no bin. *)
Theorem undefined_hue_in_no_bin
  (reference : list (DataColorimetry_TCS_CIE2017 float)) (i b : nat) :
  (i < length reference)%nat ->
  undefined (hue_angle (nth i reference (b64_sample 0 0 0))) = true ->
  ~ In i (nth b (hue_bins (H := B64_Float64 libm_cos libm_sin) reference) []).
Proof.
  intros Hi Hu Hin.
  destruct (Nat.lt_ge_cases b 16) as [Hb | Hb].
  - unfold hue_bins in Hin.
    rewrite (nth_map_in _ _ _ _ 0%nat) in Hin by (rewrite length_seq; exact Hb).
    rewrite seq_nth in Hin by exact Hb. cbn [Nat.add] in Hin.
    rewrite (np_where_eq_filter 0) in Hin.
    apply filter_In in Hin. destruct Hin as [_ Heq].
    rewrite (nth_map_in _ _ _ _ (b64_sample 0 0 0)) in Heq by exact Hi.
    cbn [feqb np_floor fdiv lit of_Z B64_Float64] in Heq.
    rewrite (label_of_undefined_hue _ b Hu Hb) in Heq. discriminate.
  - rewrite nth_overflow in Hin by (rewrite hue_bins_length; exact Hb).
    destruct Hin.
Qed.

End B64Hue.

Lemma undefined_hue_in_no_bin_witness :
  undefined (hue_angle (b64_sample nan 1 0)) = true /\
  ~ In 0%nat (nth 0 (hue_bins (H := B64_Float64 poly_cos poly_sin)
                       [b64_sample nan 1 0]) []).
Proof.
  split; [reflexivity|].
  apply undefined_hue_in_no_bin; [cbn; lia|reflexivity].
Defined.
